(** * Debit-card replacement service: validation and ticket issuance

    A shallow embedding of the two tool functions of
    [adk_agents/service_agent.py], [validate_card_details] and
    [issue_replacement_ticket], together with the parts of the Python
    runtime they call: [str] methods ([isdigit], [strip], [lower],
    [join]), [dict] literals and [dict.get], and [random.choices]. *)

From Stdlib Require Import ZArith NArith List String Ascii Bool Lia.
From Stdlib Require Import Numbers.DecimalString.
Import ListNotations.

(** ** Python strings

    A Python [str] is a sequence of Unicode code points; [len] counts code
    points.  String literals of the source are all ASCII and are written
    with [lit]. *)

Module PyStr.

Definition codepoint := N.
Definition pystr := list codepoint.

Definition lit (s : string) : pystr :=
  List.map N_of_ascii (list_ascii_of_string s).

Fixpoint pystr_eqb (a b : pystr) : bool :=
  match a, b with
  | [], [] => true
  | x :: a', y :: b' => N.eqb x y && pystr_eqb a' b'
  | _, _ => false
  end.

(** Truthiness of a [str]: [not s] holds exactly for the empty string. *)
Definition py_not (s : pystr) : bool :=
  match s with [] => true | _ :: _ => false end.

Definition len (s : pystr) : nat := List.length s.

(** [x in l] for a list of strings. *)
Definition str_in (x : pystr) (l : list pystr) : bool :=
  existsb (pystr_eqb x) l.

(** [sep.join(l)]. *)
Fixpoint str_join (sep : pystr) (l : list pystr) : pystr :=
  match l with
  | [] => []
  | [x] => x
  | x :: rest => x ++ sep ++ str_join sep rest
  end.

(** [str(n)] for an [int], as an f-string field formats it. *)
Definition str_of_int (z : Z) : pystr :=
  lit (NilZero.string_of_int (Z.to_int z)).

(** *** The ASCII range *)

Definition is_ascii (c : codepoint) : bool := (c <? 128)%N.

Definition ascii_isdigit (c : codepoint) : bool :=
  ((48 <=? c) && (c <=? 57))%N.

Definition ascii_isupper (c : codepoint) : bool :=
  ((65 <=? c) && (c <=? 90))%N.

(** Whitespace below 128: TAB, LF, VT, FF, CR, the four separators
    FS, GS, RS, US and SPACE. *)
Definition ascii_isspace (c : codepoint) : bool :=
  ((9 <=? c) && (c <=? 13) || (28 <=? c) && (c <=? 31) || (c =? 32))%N.

Definition ascii_lower (c : codepoint) : codepoint :=
  if ascii_isupper c then (c + 32)%N else c.

(** *** The Unicode character database

    [str.isdigit], [str.strip] and [str.lower] consult the interpreter's
    Unicode tables, whose contents depend on the Unicode version the
    interpreter was built with.  The development is parametric in them:
    a database gives the three lookups and satisfies what every version
    guarantees, namely the behaviour on ASCII and that the compatibility
    superscript digits are digits in the sense of [str.isdigit]
    (Numeric_Type=Digit or Decimal). *)

Record unicode_db : Type := Build_unicode_db {
  ucd_isdigit : codepoint -> bool;
  ucd_isspace : codepoint -> bool;
  (** lowercasing of a string that is not pure ASCII (full case mapping,
      including the context rule for final sigma) *)
  ucd_lower : pystr -> pystr;
  ucd_isdigit_ascii :
    forall c, (c < 128)%N -> ucd_isdigit c = ascii_isdigit c;
  ucd_isdigit_superscript :
    forall c, In c [0xB2; 0xB3; 0xB9]%N -> ucd_isdigit c = true;
  ucd_isspace_ascii :
    forall c, (c < 128)%N -> ucd_isspace c = ascii_isspace c
}.

Section Methods.
Variable U : unicode_db.

(** [s.isdigit()]: every character is a digit and there is at least one. *)
Definition str_isdigit (s : pystr) : bool :=
  match s with
  | [] => false
  | _ :: _ => forallb (ucd_isdigit U) s
  end.

Fixpoint lstrip (s : pystr) : pystr :=
  match s with
  | [] => []
  | c :: rest => if ucd_isspace U c then lstrip rest else s
  end.

Definition rstrip (s : pystr) : pystr := rev (lstrip (rev s)).

(** [s.strip()]: leading, then trailing whitespace removed. *)
Definition str_strip (s : pystr) : pystr := rstrip (lstrip s).

(** [s.lower()]: an ASCII string is lowered character by character;
    any other string goes through the full case mapping. *)
Definition str_lower (s : pystr) : pystr :=
  if forallb is_ascii s then List.map ascii_lower s else ucd_lower U s.
End Methods.

(** *** An excerpt of the database

    A concrete database on which examples evaluate: the whitespace set of
    [str.isspace], the decimal and superscript digits of the Basic
    Multilingual Plane's first blocks, and the simple lower-case mapping of
    Latin-1.  Characters outside the excerpt are treated as caseless
    non-digits; the examples below use only characters on which the
    excerpt and the interpreter's tables agree. *)

Definition in_range (lo hi c : codepoint) : bool := ((lo <=? c) && (c <=? hi))%N.

Definition excerpt_isdigit (c : codepoint) : bool :=
  existsb (fun r => in_range (fst r) (snd r) c)
    [ (0x30, 0x39); (0xB2, 0xB3); (0xB9, 0xB9); (0x660, 0x669);
      (0x6F0, 0x6F9); (0x7C0, 0x7C9); (0x966, 0x96F); (0x2070, 0x2070);
      (0x2074, 0x2079); (0x2080, 0x2089); (0xFF10, 0xFF19) ]%N.

Definition excerpt_isspace (c : codepoint) : bool :=
  existsb (fun r => in_range (fst r) (snd r) c)
    [ (0x09, 0x0D); (0x1C, 0x20); (0x85, 0x85); (0xA0, 0xA0);
      (0x1680, 0x1680); (0x2000, 0x200A); (0x2028, 0x2029);
      (0x202F, 0x202F); (0x205F, 0x205F); (0x3000, 0x3000) ]%N.

Definition excerpt_lower_cp (c : codepoint) : codepoint :=
  if ascii_isupper c then (c + 32)%N
  else if (in_range 0xC0 0xDE c && negb (c =? 0xD7))%N then (c + 32)%N
  else c.

Definition excerpt_lower (s : pystr) : pystr := List.map excerpt_lower_cp s.

Lemma excerpt_isdigit_ascii (c : codepoint) :
  (c < 128)%N -> excerpt_isdigit c = ascii_isdigit c.
Proof.
  intro Hc. unfold excerpt_isdigit, ascii_isdigit, in_range. cbn [existsb fst snd].
  apply eq_true_iff_eq.
  rewrite ?orb_true_iff, ?andb_true_iff, ?N.leb_le. lia.
Qed.

Lemma excerpt_isdigit_superscript (c : codepoint) :
  In c [0xB2; 0xB3; 0xB9]%N -> excerpt_isdigit c = true.
Proof.
  cbn [In]. intros [<- | [<- | [<- | []]]]; reflexivity.
Qed.

Lemma excerpt_isspace_ascii (c : codepoint) :
  (c < 128)%N -> excerpt_isspace c = ascii_isspace c.
Proof.
  intro Hc. unfold excerpt_isspace, ascii_isspace, in_range. cbn [existsb fst snd].
  apply eq_true_iff_eq.
  rewrite ?orb_true_iff, ?andb_true_iff, ?N.leb_le, ?N.eqb_eq. lia.
Qed.

Definition unicode_excerpt : unicode_db :=
  {| ucd_isdigit := excerpt_isdigit;
     ucd_isspace := excerpt_isspace;
     ucd_lower := excerpt_lower;
     ucd_isdigit_ascii := excerpt_isdigit_ascii;
     ucd_isdigit_superscript := excerpt_isdigit_superscript;
     ucd_isspace_ascii := excerpt_isspace_ascii |}.

End PyStr.

(** ** The rest of the runtime: values, dictionaries, exceptions and the
    random number generator *)

Module PyRuntime.
Import PyStr.

(** The values the two tools put into their result dictionaries. *)
Inductive pyval : Type :=
| VBool (b : bool)
| VInt (z : Z)
| VStr (s : pystr)
| VList (l : list pystr).

(** A [dict] literal with [str] keys, in insertion order.  Every literal of
    the source has pairwise distinct keys. *)
Definition pydict := list (string * pyval).

Definition item (k : string) (v : pyval) : string * pyval := (k, v).

Fixpoint dict_get (k : string) (d : pydict) : option pyval :=
  match d with
  | [] => None
  | (k', v) :: rest => if String.eqb k k' then Some v else dict_get k rest
  end.

(** [d.get(key, default)] on a dictionary keyed by Python strings. *)
Fixpoint get_default {V : Type} (d : list (pystr * V)) (key : pystr) (default : V) : V :=
  match d with
  | [] => default
  | (k, v) :: rest => if pystr_eqb key k then v else get_default rest key default
  end.

(** *** Effects

    A call runs against the process-wide generator of module [random] and
    either returns or raises.  The generator is the stream of the outcomes
    its future [random()] calls will have: outcome [k] stands for the float
    [k / 2^53], the 53-bit fraction [random()] returns. *)

Inductive exn : Type := IndexError.

Inductive outcome (A : Type) : Type :=
| Ok (a : A)
| Raise (e : exn).
Arguments Ok {A} a.
Arguments Raise {A} e.

Definition rng := nat -> Z.

Definition Py (A : Type) : Type := rng -> outcome A * rng.

Definition ret {A : Type} (a : A) : Py A := fun g => (Ok a, g).

Definition raise {A : Type} (e : exn) : Py A := fun g => (Raise e, g).

Definition bind {A B : Type} (m : Py A) (f : A -> Py B) : Py B :=
  fun g =>
    match m g with
    | (Ok a, g') => f a g'
    | (Raise e, g') => (Raise e, g')
    end.

Notation "x <- m ;; k" := (bind m (fun x => k))
  (at level 61, m at next level, right associativity).

Definition two53 : Z := 9007199254740992.

(** Every outcome of the generator is a 53-bit fraction. *)
Definition rng_ok (g : rng) : Prop := forall i, (0 <= g i < two53)%Z.

(** [random.random()]: the next outcome; the generator advances. *)
Definition random : Py Z := fun g => (Ok (g 0%nat), fun i => g (S i)).

(** Rounding of a non-negative integer to 53 significant bits, to nearest
    with ties to even: the rounding of a double-precision product. *)
Definition round53 (x : Z) : Z :=
  let e := (Z.log2 x - 52)%Z in
  if (e <=? 0)%Z then x
  else
    let q := (x / 2 ^ e)%Z in
    let r := (x mod 2 ^ e)%Z in
    let h := (2 ^ (e - 1))%Z in
    let q' := if (r <? h)%Z then q
              else if (h <? r)%Z then (q + 1)%Z
              else if Z.even q then q else (q + 1)%Z in
    (q' * 2 ^ e)%Z.

(** [floor(r * n)] for the float [r = k / 2^53] and the float [n] of a
    length: the product [k * n / 2^53] rounded to a double, then floored. *)
Definition floor_mul (k n : Z) : Z := (round53 (k * n) / two53)%Z.

(** [l[i]]: a negative index counts from the end; out of range raises. *)
Definition getitem {A : Type} (l : list A) (i : Z) : Py A :=
  let n := Z.of_nat (List.length l) in
  let j := if (i <? 0)%Z then (i + n)%Z else i in
  if ((0 <=? j) && (j <? n))%Z then
    match nth_error l (Z.to_nat j) with
    | Some a => ret a
    | None => raise IndexError
    end
  else raise IndexError.

(** [random.choices(population, k=k)] without weights:
    [[population[floor(random() * n)] for i in repeat(None, k)]]
    with [n = len(population) + 0.0]. *)
Fixpoint choices {A : Type} (population : list A) (k : nat) : Py (list A) :=
  match k with
  | O => ret []
  | S k' =>
      r <- random ;;
      x <- getitem population (floor_mul r (Z.of_nat (List.length population))) ;;
      rest <- choices population k' ;;
      ret (x :: rest)
  end.

(** [string.ascii_uppercase] and [string.digits]. *)
Definition ascii_uppercase : pystr := lit "ABCDEFGHIJKLMNOPQRSTUVWXYZ".
Definition digits : pystr := lit "0123456789".

End PyRuntime.

(** ** The service agent's tools *)

Module Service.
Import PyStr PyRuntime.

Definition valid_reasons : list pystr :=
  [lit "lost"; lit "stolen"; lit "damaged"; lit "expired"].

Definition msg_digits : pystr :=
  lit "Last 4 digits must be exactly 4 numeric characters".
Definition msg_name : pystr :=
  lit "Cardholder name must be at least 2 characters".
Definition msg_address : pystr :=
  lit "Address must be at least 10 characters".
Definition msg_reason : pystr :=
  lit "Replacement reason must be one of: " ++ str_join (lit ", ") valid_reasons.

(** [validate_card_details]: the four checks append to the local list
    [errors] in turn; the generator is not touched. *)
Definition validate_card_details (U : unicode_db)
    (last_four_digits cardholder_name address replacement_reason : pystr)
    : Py pydict :=
  let errors : list pystr := [] in
  let errors :=
    if py_not last_four_digits
       || negb (len last_four_digits =? 4)%nat
       || negb (str_isdigit U last_four_digits)
    then errors ++ [msg_digits] else errors in
  let errors :=
    if py_not cardholder_name
       || (len (str_strip U cardholder_name) <? 2)%nat
    then errors ++ [msg_name] else errors in
  let errors :=
    if py_not address
       || (len (str_strip U address) <? 10)%nat
    then errors ++ [msg_address] else errors in
  let errors :=
    if py_not replacement_reason
       || negb (str_in (str_lower U replacement_reason) valid_reasons)
    then errors ++ [msg_reason] else errors in
  match errors with
  | _ :: _ =>
      ret [ item "valid" (VBool false);
            item "errors" (VList errors);
            item "status" (VStr (lit "validation_failed")) ]
  | [] =>
      ret [ item "valid" (VBool true);
            item "last_four_digits" (VStr last_four_digits);
            item "cardholder_name" (VStr (str_strip U cardholder_name));
            item "address" (VStr (str_strip U address));
            item "replacement_reason" (VStr (str_lower U replacement_reason));
            item "status" (VStr (lit "validated")) ]
  end.

Definition processing_days : list (pystr * Z) :=
  [ (lit "lost", 3%Z); (lit "stolen", 1%Z); (lit "damaged", 2%Z);
    (lit "expired", 5%Z) ].

(** [issue_replacement_ticket]: eight draws for the ticket id, then the
    table lookup on the lowered reason; the four arguments are not checked. *)
Definition issue_replacement_ticket (U : unicode_db)
    (last_four_digits cardholder_name address replacement_reason : pystr)
    : Py pydict :=
  suffix <- choices (ascii_uppercase ++ digits) 8 ;;
  let ticket_id := lit "TICKET-" ++ str_join [] (List.map (fun c => [c]) suffix) in
  let days := get_default processing_days (str_lower U replacement_reason) 3%Z in
  ret [ item "ticket_id" (VStr ticket_id);
        item "status" (VStr (lit "issued"));
        item "cardholder_name" (VStr cardholder_name);
        item "last_four_digits" (VStr last_four_digits);
        item "replacement_reason" (VStr replacement_reason);
        item "estimated_processing_days" (VInt days);
        item "message"
          (VStr (lit "Replacement ticket " ++ ticket_id
                 ++ lit " issued successfully. New card will arrive in "
                 ++ str_of_int days ++ lit " business days.")) ].

End Service.

(** ** The result shapes and the field constraints *)

Import PyStr PyRuntime Service.

(** [Valid(normalizedRequest)]: the dictionary of a successful validation. *)
Definition validated (digits name address reason : pystr) : pydict :=
  [ item "valid" (VBool true);
    item "last_four_digits" (VStr digits);
    item "cardholder_name" (VStr name);
    item "address" (VStr address);
    item "replacement_reason" (VStr reason);
    item "status" (VStr (lit "validated")) ].

(** [Invalid(errors)]: the dictionary of a failed validation. *)
Definition validation_failed (errors : list pystr) : pydict :=
  [ item "valid" (VBool false);
    item "errors" (VList errors);
    item "status" (VStr (lit "validation_failed")) ].

(** The dictionary of an issued ticket. *)
Definition ticket (ticket_id digits name reason : pystr) (days : Z) : pydict :=
  [ item "ticket_id" (VStr ticket_id);
    item "status" (VStr (lit "issued"));
    item "cardholder_name" (VStr name);
    item "last_four_digits" (VStr digits);
    item "replacement_reason" (VStr reason);
    item "estimated_processing_days" (VInt days);
    item "message"
      (VStr (lit "Replacement ticket " ++ ticket_id
             ++ lit " issued successfully. New card will arrive in "
             ++ str_of_int days ++ lit " business days.")) ].

(** The ticket-id pattern: [TICKET-] and eight characters of [[A-Z0-9]]. *)
Definition ticket_id_pattern (id : pystr) : Prop :=
  exists suffix,
    id = lit "TICKET-" ++ suffix
    /\ List.length suffix = 8%nat
    /\ Forall (fun c => ascii_isupper c = true \/ ascii_isdigit c = true) suffix.

(** The generator after [k] draws. *)
Definition advance (k : nat) (g : rng) : rng := fun i => g (k + i)%nat.

(** The error messages a result carries ([[]] when it has no such key). *)
Definition reported_errors (res : pydict) : list pystr :=
  match dict_get "errors" res with
  | Some (VList l) => l
  | _ => []
  end.

(** The digit constraint as the specification words it: non-empty, length
    exactly 4, every character an ASCII decimal digit. *)
Definition spec_digits_okb (s : pystr) : bool :=
  negb (py_not s) && (len s =? 4)%nat && forallb ascii_isdigit s.

(** The digit constraint with the digits of [str.isdigit]. *)
Definition digits_okb (U : unicode_db) (s : pystr) : bool :=
  negb (py_not s) && (len s =? 4)%nat && forallb (ucd_isdigit U) s.

(** Name: non-empty after trimming, trimmed length at least 2. *)
Definition name_okb (U : unicode_db) (s : pystr) : bool :=
  negb (py_not (str_strip U s)) && (2 <=? len (str_strip U s))%nat.

(** Address: non-empty after trimming, trimmed length at least 10. *)
Definition address_okb (U : unicode_db) (s : pystr) : bool :=
  negb (py_not (str_strip U s)) && (10 <=? len (str_strip U s))%nat.

(** Reason: non-empty and, lowered, one of the four allowed reasons. *)
Definition reason_okb (U : unicode_db) (s : pystr) : bool :=
  negb (py_not s) && str_in (str_lower U s) valid_reasons.

(** The four constraints of the specification, taken together. *)
Definition spec_constraints_okb (U : unicode_db) (d n a r : pystr) : bool :=
  spec_digits_okb d && name_okb U n && address_okb U a && reason_okb U r.

(** The same with the digits of [str.isdigit]. *)
Definition constraints_okb (U : unicode_db) (d n a r : pystr) : bool :=
  digits_okb U d && name_okb U n && address_okb U a && reason_okb U r.

(** One message per failing constraint, in the order digits, name,
    address, reason. *)
Definition expected_errors (U : unicode_db) (d n a r : pystr) : list pystr :=
  (if digits_okb U d then [] else [msg_digits])
  ++ (if name_okb U n then [] else [msg_name])
  ++ (if address_okb U a then [] else [msg_address])
  ++ (if reason_okb U r then [] else [msg_reason]).

(** How many of the four constraints fail. *)
Definition failing_constraints (U : unicode_db) (d n a r : pystr) : nat :=
  List.length (List.filter negb
    [digits_okb U d; name_okb U n; address_okb U a; reason_okb U r]).

(** A string of whitespace only. *)
Definition all_space (U : unicode_db) (s : pystr) : Prop :=
  Forall (fun c => ucd_isspace U c = true) s.

(** [t] is [s] trimmed: [s] is [t] between two runs of whitespace, and [t]
    neither starts nor ends with whitespace. *)
Definition trimmed_of (U : unicode_db) (s t : pystr) : Prop :=
  (exists pre post, s = pre ++ t ++ post /\ all_space U pre /\ all_space U post)
  /\ (forall c rest, t = c :: rest -> ucd_isspace U c = false)
  /\ (forall c front, t = front ++ [c] -> ucd_isspace U c = false).

(** Inputs used in examples. *)
Definition superscript_twos : pystr := [0xB2; 0xB2; 0xB2; 0xB2]%N.
Definition superscript_1232 : pystr := [0xB9; 0xB2; 0xB3; 0xB2]%N.
Definition john_smith : pystr := lit "John Smith".
Definition main_street : pystr := lit "123 Main Street, Anytown, NY 12345".

(** A generator for examples: a fixed, non-constant stream of fractions. *)
Definition sample_rng : rng :=
  fun i => ((Z.of_nat i * 1234567890123457) mod two53)%Z.

(** ** Strings *)

Section StringFacts.
Variable U : unicode_db.

Lemma pystr_eqb_eq (a b : pystr) : pystr_eqb a b = true <-> a = b.
Proof.
  revert b; induction a as [| x a IH]; intros [| y b]; cbn; try easy.
  rewrite andb_true_iff, N.eqb_eq, IH. split.
  - now intros [-> ->].
  - intros [= -> ->]. auto.
Qed.

Lemma str_in_In (x : pystr) (l : list pystr) : str_in x l = true <-> In x l.
Proof.
  unfold str_in. rewrite existsb_exists. split.
  - intros [y [Hy Heq]]. apply pystr_eqb_eq in Heq. now subst.
  - intros Hin. exists x. split; [assumption | now apply pystr_eqb_eq].
Qed.

Lemma py_not_nil (s : pystr) : py_not s = true <-> s = [].
Proof. destruct s; cbn; split; congruence. Qed.

Lemma lstrip_split (s : pystr) :
  exists pre, s = pre ++ lstrip U s /\ all_space U pre.
Proof.
  induction s as [| c s [pre [Heq Hpre]]]; cbn.
  - exists []. split; [reflexivity | constructor].
  - destruct (ucd_isspace U c) eqn:Hc.
    + exists (c :: pre). split; [cbn; congruence | now constructor].
    + exists []. split; [reflexivity | constructor].
Qed.

Lemma lstrip_head (s : pystr) (c : codepoint) (rest : pystr) :
  lstrip U s = c :: rest -> ucd_isspace U c = false.
Proof.
  induction s as [| x s IH]; cbn; [discriminate |].
  destruct (ucd_isspace U x) eqn:Hx; [exact IH |].
  now intros [= <- _].
Qed.

(** Stripping on the left keeps the last character. *)
Lemma lstrip_last (front : pystr) (c : codepoint) :
  ucd_isspace U c = false -> lstrip U (front ++ [c]) = lstrip U front ++ [c].
Proof.
  intro Hc. induction front as [| x front IH]; cbn.
  - now rewrite Hc.
  - destruct (ucd_isspace U x); [exact IH | reflexivity].
Qed.

Lemma rstrip_split (s : pystr) :
  exists post, s = rstrip U s ++ post /\ all_space U post.
Proof.
  unfold rstrip. destruct (lstrip_split (rev s)) as [pre [Heq Hpre]].
  exists (rev pre). split.
  - rewrite <- rev_app_distr, <- Heq. now rewrite rev_involutive.
  - unfold all_space in *. apply Forall_forall. intros c Hin.
    apply in_rev in Hin. revert c Hin. now apply Forall_forall.
Qed.

Lemma rstrip_last (s front : pystr) (c : codepoint) :
  rstrip U s = front ++ [c] -> ucd_isspace U c = false.
Proof.
  unfold rstrip. intro H.
  apply (f_equal (@rev codepoint)) in H.
  rewrite rev_involutive, rev_app_distr in H. cbn in H.
  exact (lstrip_head _ _ _ H).
Qed.

(** Stripping on the right keeps the first character of a string that
    does not start with whitespace. *)
Lemma rstrip_cons (c : codepoint) (s : pystr) :
  ucd_isspace U c = false -> rstrip U (c :: s) = c :: rstrip U s.
Proof.
  intro Hc. unfold rstrip. cbn [rev].
  rewrite (lstrip_last _ _ Hc), rev_app_distr. reflexivity.
Qed.

(** [strip] meets its description. *)
Lemma str_strip_trimmed (s : pystr) : trimmed_of U s (str_strip U s).
Proof.
  unfold str_strip. repeat split.
  - destruct (lstrip_split s) as [pre [Hs Hpre]].
    destruct (rstrip_split (lstrip U s)) as [post [Hl Hpost]].
    exists pre, post. split; [| split; assumption].
    rewrite Hs at 1. now rewrite Hl at 1.
  - intros c rest H. destruct (lstrip U s) as [| x l] eqn:Hl.
    + discriminate H.
    + pose proof (lstrip_head _ _ _ Hl) as Hx.
      rewrite (rstrip_cons _ _ Hx) in H. now injection H as <- _.
  - intros c front H. exact (rstrip_last _ _ _ H).
Qed.

Lemma str_strip_nil : str_strip U [] = [].
Proof. reflexivity. Qed.

(** On an ASCII string [lower] moves exactly the 26 capital letters. *)
Lemma str_lower_ascii (s : pystr) :
  forallb is_ascii s = true -> str_lower U s = List.map ascii_lower s.
Proof. unfold str_lower. now intros ->. Qed.

(** On ASCII the two notions of digit agree. *)
Lemma digits_okb_ascii (s : pystr) :
  forallb is_ascii s = true -> digits_okb U s = spec_digits_okb s.
Proof.
  intro Hs. unfold digits_okb, spec_digits_okb. f_equal.
  induction s as [| c s IH]; [reflexivity |].
  cbn in Hs |- *. apply andb_true_iff in Hs as [Hc Hs].
  rewrite (IH Hs). f_equal. apply ucd_isdigit_ascii.
  now apply N.ltb_lt.
Qed.

(** Four ASCII digits are four digits in the sense of [str.isdigit]. *)
Lemma spec_digits_okb_digits_okb (s : pystr) :
  spec_digits_okb s = true -> digits_okb U s = true.
Proof.
  intro H. rewrite digits_okb_ascii; [assumption |].
  unfold spec_digits_okb in H. apply andb_true_iff in H as [_ H].
  rewrite forallb_forall in *. intros c Hc. specialize (H c Hc).
  unfold ascii_isdigit in H. unfold is_ascii.
  apply andb_true_iff in H as [_ H]. apply N.leb_le in H. apply N.ltb_lt. lia.
Qed.

End StringFacts.

(** ** The validator *)

Section ValidateFacts.
Variable U : unicode_db.

(** Each condition of the source is the negation of its constraint. *)
Lemma check_digits (s : pystr) :
  py_not s || negb (len s =? 4)%nat || negb (str_isdigit U s)
  = negb (digits_okb U s).
Proof.
  destruct s as [| c s]; [reflexivity |].
  unfold digits_okb, str_isdigit. cbn [py_not negb orb andb].
  now rewrite negb_andb.
Qed.

Lemma check_trimmed (s : pystr) (k : nat) :
  (0 < k)%nat ->
  py_not s || (len (str_strip U s) <? k)%nat
  = negb (negb (py_not (str_strip U s)) && (k <=? len (str_strip U s))%nat).
Proof.
  intro Hk. destruct s as [| c s].
  - cbn. reflexivity.
  - cbn [py_not orb]. rewrite Nat.ltb_antisym.
    destruct (str_strip U (c :: s)) as [| x t]; [| reflexivity].
    cbn. destruct k; [lia | reflexivity].
Qed.

Lemma check_reason (s : pystr) :
  py_not s || negb (str_in (str_lower U s) valid_reasons)
  = negb (reason_okb U s).
Proof. unfold reason_okb. rewrite negb_andb, negb_involutive. reflexivity. Qed.

(** The validator in one equation: the generator is returned as it came,
    and the result is one of the two shapes. *)
Lemma validate_card_details_eq (d n a r : pystr) (g : rng) :
  validate_card_details U d n a r g =
  (Ok (if constraints_okb U d n a r
       then validated d (str_strip U n) (str_strip U a) (str_lower U r)
       else validation_failed (expected_errors U d n a r)), g).
Proof.
  unfold validate_card_details.
  rewrite check_digits, check_reason.
  rewrite (check_trimmed n 2), (check_trimmed a 10) by lia.
  fold (name_okb U n) (address_okb U a).
  unfold constraints_okb, expected_errors.
  destruct (digits_okb U d), (name_okb U n), (address_okb U a), (reason_okb U r);
    reflexivity.
Qed.

Lemma expected_errors_nil (d n a r : pystr) :
  expected_errors U d n a r = [] <-> constraints_okb U d n a r = true.
Proof.
  unfold expected_errors, constraints_okb.
  destruct (digits_okb U d), (name_okb U n), (address_okb U a), (reason_okb U r);
    cbn; split; congruence.
Qed.

Lemma expected_errors_length (d n a r : pystr) :
  List.length (expected_errors U d n a r) = failing_constraints U d n a r.
Proof.
  unfold expected_errors, failing_constraints.
  destruct (digits_okb U d), (name_okb U n), (address_okb U a), (reason_okb U r);
    reflexivity.
Qed.

Lemma messages_distinct : NoDup [msg_digits; msg_name; msg_address; msg_reason].
Proof.
  repeat constructor; cbn [In]; intro H;
    repeat (destruct H as [H | H]; [vm_compute in H; discriminate H |]);
    exact H.
Qed.

Lemma msg_reason_text :
  msg_reason
  = lit "Replacement reason must be one of: lost, stolen, damaged, expired".
Proof. reflexivity. Qed.

(** The digits message is reported exactly when the digits check fails. *)
Lemma digit_error_expected (d n a r : pystr) :
  In msg_digits (expected_errors U d n a r) <-> digits_okb U d = false.
Proof.
  unfold expected_errors.
  destruct (digits_okb U d), (name_okb U n), (address_okb U a), (reason_okb U r);
    cbn [app In]; split; intro H; try reflexivity; try discriminate H; auto;
    repeat (destruct H as [H | H]; [vm_compute in H; discriminate H |]);
    destruct H.
Qed.

Lemma digits_okb_spec (s : pystr) :
  digits_okb U s = true
  <-> len s = 4%nat /\ Forall (fun c => ucd_isdigit U c = true) s.
Proof.
  unfold digits_okb. rewrite !andb_true_iff, Nat.eqb_eq, forallb_forall, Forall_forall.
  split.
  - tauto.
  - intros [Hl Hd]. repeat split; try assumption.
    destruct s; [discriminate Hl | reflexivity].
Qed.

Lemma spec_digits_okb_spec (s : pystr) :
  spec_digits_okb s = true
  <-> len s = 4%nat /\ Forall (fun c => ascii_isdigit c = true) s.
Proof.
  unfold spec_digits_okb. rewrite !andb_true_iff, Nat.eqb_eq, forallb_forall, Forall_forall.
  split.
  - tauto.
  - intros [Hl Hd]. repeat split; try assumption.
    destruct s; [discriminate Hl | reflexivity].
Qed.

End ValidateFacts.

(** The compatibility superscript digits pass [isdigit] in every database,
    and are not ASCII digits. *)
Lemma superscripts_are_digits (U : unicode_db) :
  digits_okb U superscript_twos = true /\ digits_okb U superscript_1232 = true
  /\ spec_digits_okb superscript_twos = false
  /\ spec_digits_okb superscript_1232 = false.
Proof.
  repeat split; try reflexivity.
  - apply digits_okb_spec. split; [reflexivity |].
    repeat constructor; apply ucd_isdigit_superscript; cbn; auto.
  - apply digits_okb_spec. split; [reflexivity |].
    repeat constructor; apply ucd_isdigit_superscript; cbn; auto.
Qed.

(** ** The random draws *)

Ltac eval_pow2 :=
  repeat match goal with
         | |- context [(2 ^ ?n)%Z] =>
             let v := eval vm_compute in (2 ^ n)%Z in change (2 ^ n)%Z with v
         | H : context [(2 ^ ?n)%Z] |- _ =>
             let v := eval vm_compute in (2 ^ n)%Z in change (2 ^ n)%Z with v in H
         end.

Section RandomFacts.
Local Open Scope Z_scope.

Lemma round53_exact (x : Z) : 0 <= x < two53 -> round53 x = x.
Proof.
  intros [H0 H1]. unfold round53.
  destruct (Z.eq_dec x 0) as [-> | Hx]; [reflexivity |].
  assert (Z.log2 x < 53) by (apply Z.log2_lt_pow2; [lia | exact H1]).
  destruct (Z.leb_spec (Z.log2 x - 52) 0); [reflexivity | lia].
Qed.

(** Above 53 bits the value moves to a neighbouring multiple of [2^e],
    and downwards when the remainder is below one half. *)
Lemma round53_neighbour (x e : Z) :
  e = Z.log2 x - 52 -> 0 < e ->
  exists q', round53 x = q' * 2 ^ e
             /\ x / 2 ^ e <= q' <= x / 2 ^ e + 1
             /\ (x mod 2 ^ e < 2 ^ (e - 1) -> q' = x / 2 ^ e).
Proof.
  intros -> He. unfold round53.
  destruct (Z.leb_spec (Z.log2 x - 52) 0); [lia |].
  set (e := Z.log2 x - 52) in *.
  destruct (Z.ltb_spec (x mod 2 ^ e) (2 ^ (e - 1))).
  - exists (x / 2 ^ e). repeat split; lia.
  - destruct (Z.ltb_spec (2 ^ (e - 1)) (x mod 2 ^ e)).
    + exists (x / 2 ^ e + 1). repeat split; lia.
    + destruct (Z.even (x / 2 ^ e)).
      * exists (x / 2 ^ e). repeat split; lia.
      * exists (x / 2 ^ e + 1). repeat split; lia.
Qed.

(** The product of a fraction below 1 with 36.0 stays below 36.0 after
    rounding. *)
Lemma round53_below_36 (x : Z) :
  0 <= x <= 36 * two53 - 36 -> 0 <= round53 x < 36 * two53.
Proof.
  intros [H0 H1].
  destruct (Z_lt_le_dec x two53) as [Hs | Hl].
  - rewrite round53_exact by lia. unfold two53 in *. lia.
  - assert (Hx : 0 < x) by (unfold two53 in Hl; lia).
    pose proof (Z.log2_spec x Hx) as [Hlo Hhi].
    assert (H53 : 53 <= Z.log2 x).
    { change 53 with (Z.log2 two53). now apply Z.log2_le_mono. }
    assert (H58 : Z.log2 x < 59).
    { apply Z.log2_lt_pow2; [assumption |]. unfold two53 in H1. eval_pow2. lia. }
    destruct (round53_neighbour x (Z.log2 x - 52) eq_refl) as [q' [-> [Hq Hdown]]];
      [lia |].
    remember (Z.log2 x) as L eqn:HL. clear HL.
    unfold two53 in *.
    assert (HL : L = 53 \/ L = 54 \/ L = 55 \/ L = 56 \/ L = 57 \/ L = 58) by lia.
    destruct HL as [-> | [-> | [-> | [-> | [-> | ->]]]]];
      cbn [Z.sub Z.add Z.opp Z.succ Z.pos_sub Pos.succ Pos.add Pos.pred_double
           Z.double Z.succ_double Z.pred_double Pos.succ] in *;
      eval_pow2;
      match goal with
      | _ : context [x / ?c] |- _ =>
          pose proof (Z.div_mod x c ltac:(lia));
          pose proof (Z.mod_pos_bound x c ltac:(lia))
      end; lia.
Qed.

Lemma floor_mul_36 (k : Z) : 0 <= k < two53 -> 0 <= floor_mul k 36 < 36.
Proof.
  intro Hk. unfold floor_mul.
  assert (H : 0 <= round53 (k * 36) < 36 * two53).
  { apply round53_below_36. unfold two53 in *. lia. }
  split.
  - apply Z.div_pos; [lia | reflexivity].
  - apply Z.div_lt_upper_bound; [reflexivity | lia].
Qed.

Lemma getitem_in_range {A : Type} (l : list A) (i : Z) (g : rng) :
  0 <= i < Z.of_nat (List.length l) ->
  exists a, getitem l i g = (Ok a, g) /\ In a l.
Proof.
  intros [H0 H1]. unfold getitem.
  destruct (Z.ltb_spec i 0); [lia |].
  destruct (Z.leb_spec 0 i); [| lia].
  destruct (Z.ltb_spec i (Z.of_nat (List.length l))); [| lia].
  cbn [andb].
  destruct (nth_error l (Z.to_nat i)) as [a |] eqn:Hn.
  - exists a. split; [reflexivity | exact (nth_error_In _ _ Hn)].
  - apply nth_error_None in Hn. lia.
Qed.

(** [k] choices from a population of 36: the call returns [k] members of
    the population and leaves the generator [k] draws further. *)
Lemma choices_36 {A : Type} (population : list A) (k : nat) :
  List.length population = 36%nat ->
  forall g, rng_ok g ->
  exists l, choices population k g = (Ok l, advance k g)
            /\ List.length l = k
            /\ Forall (fun x => In x population) l.
Proof.
  intro Hn. induction k as [| k IH]; intros g Hg.
  - exists []. repeat split. constructor.
  - cbn [choices]. unfold bind at 1. cbn [random].
    rewrite Hn. change (Z.of_nat 36) with 36.
    destruct (getitem_in_range population (floor_mul (g 0%nat) 36)
                (fun i => g (S i))) as [x [Hx Hin]].
    { rewrite Hn. apply floor_mul_36, Hg. }
    unfold bind at 1. rewrite Hx.
    destruct (IH (fun i => g (S i))) as [l [Hl [Hlen Hall]]].
    { intro i. apply Hg. }
    unfold bind at 1. rewrite Hl.
    exists (x :: l). repeat split.
    + cbn. now rewrite Hlen.
    + now constructor.
Qed.

End RandomFacts.

(** ** The ticket issuer *)

Section IssueFacts.
Variable U : unicode_db.

Lemma join_singletons (s : pystr) :
  str_join [] (List.map (fun c => [c]) s) = s.
Proof.
  induction s as [| c s IH]; [reflexivity |].
  destruct s as [| c' s]; [reflexivity |].
  cbn [List.map str_join] in IH |- *. now rewrite IH.
Qed.

Lemma alphabet_length : List.length (ascii_uppercase ++ digits) = 36%nat.
Proof. reflexivity. Qed.

(** The population of the draw is the 26 capitals and the 10 digits, each
    once. *)
Lemma alphabet_members (c : codepoint) :
  In c (ascii_uppercase ++ digits)
  <-> ascii_isupper c = true \/ ascii_isdigit c = true.
Proof.
  change (ascii_uppercase ++ digits)
    with (List.map N.of_nat (seq 65 26) ++ List.map N.of_nat (seq 48 10)).
  unfold ascii_isupper, ascii_isdigit.
  rewrite in_app_iff, !in_map_iff, !andb_true_iff, !N.leb_le.
  split.
  - intros [[k [<- Hk]] | [k [<- Hk]]]; apply in_seq in Hk; lia.
  - intros [H | H]; [left | right]; exists (N.to_nat c);
      (split; [apply N2Nat.id | apply in_seq; lia]).
Qed.

Lemma alphabet_nodup : NoDup (ascii_uppercase ++ digits).
Proof.
  replace (ascii_uppercase ++ digits)
    with (nodup N.eq_dec (ascii_uppercase ++ digits)) by (vm_compute; reflexivity).
  apply NoDup_nodup.
Qed.

(** The table lookup, case by case. *)
Lemma processing_days_lookup (key : pystr) :
  (key = lit "lost" /\ get_default processing_days key 3%Z = 3%Z)
  \/ (key = lit "stolen" /\ get_default processing_days key 3%Z = 1%Z)
  \/ (key = lit "damaged" /\ get_default processing_days key 3%Z = 2%Z)
  \/ (key = lit "expired" /\ get_default processing_days key 3%Z = 5%Z)
  \/ (~ In key (List.map fst processing_days)
      /\ get_default processing_days key 3%Z = 3%Z).
Proof.
  unfold processing_days. cbn [get_default List.map fst In].
  destruct (pystr_eqb key (lit "lost")) eqn:H1;
    [apply pystr_eqb_eq in H1; auto |].
  destruct (pystr_eqb key (lit "stolen")) eqn:H2;
    [apply pystr_eqb_eq in H2; auto |].
  destruct (pystr_eqb key (lit "damaged")) eqn:H3;
    [apply pystr_eqb_eq in H3; auto |].
  destruct (pystr_eqb key (lit "expired")) eqn:H4;
    [apply pystr_eqb_eq in H4; auto 6 |].
  do 4 right. split; [| reflexivity].
  intros [E | [E | [E | [E | []]]]]; symmetry in E; apply pystr_eqb_eq in E; congruence.
Qed.

(** The issuer in one equation. *)
Lemma issue_replacement_ticket_eq (d n a r : pystr) (g : rng) :
  rng_ok g ->
  exists suffix,
    List.length suffix = 8%nat
    /\ Forall (fun c => In c (ascii_uppercase ++ digits)) suffix
    /\ issue_replacement_ticket U d n a r g =
       (Ok (ticket (lit "TICKET-" ++ suffix) d n r
              (get_default processing_days (str_lower U r) 3%Z)),
        advance 8 g).
Proof.
  intro Hg.
  destruct (choices_36 (ascii_uppercase ++ digits) 8 alphabet_length g Hg)
    as [suffix [Hc [Hlen Hall]]].
  exists suffix. repeat split; try assumption.
  unfold issue_replacement_ticket, bind. rewrite Hc.
  rewrite join_singletons. reflexivity.
Qed.

End IssueFacts.

Lemma sample_rng_ok : rng_ok sample_rng.
Proof. intro i. unfold sample_rng. apply Z.mod_pos_bound. reflexivity. Qed.

(** ** Properties of the validator *)

(** C1 (as the code has it).  For every four strings the validator returns
    the valid-shaped result exactly when all four constraints hold, where
    the digit constraint reads: non-empty, length exactly 4, every character
    a digit in the sense of [str.isdigit].  The result is either the
    valid-shaped dictionary of the normalised request or the invalid-shaped
    one with a non-empty error list, never a mixture.  When the digits
    field is ASCII the constraints are those of the specification. *)
Theorem validate_all_or_nothing (U : unicode_db) (d n a r : pystr) (g : rng) :
  exists res,
    validate_card_details U d n a r g = (Ok res, g)
    /\ (dict_get "valid" res = Some (VBool true)
        <-> constraints_okb U d n a r = true)
    /\ (res = validated d (str_strip U n) (str_strip U a) (str_lower U r)
        \/ (res = validation_failed (expected_errors U d n a r)
            /\ expected_errors U d n a r <> []))
    /\ (forallb is_ascii d = true ->
        constraints_okb U d n a r = spec_constraints_okb U d n a r).
Proof.
  eexists. split; [apply validate_card_details_eq |].
  destruct (constraints_okb U d n a r) eqn:Hok.
  - split; [split; reflexivity |]. split; [now left |].
    intro Hd. unfold constraints_okb in Hok. unfold spec_constraints_okb.
    rewrite <- (digits_okb_ascii U d Hd). now rewrite Hok.
  - split; [split; discriminate |]. split.
    + right. split; [reflexivity |]. intro He.
      apply expected_errors_nil in He. congruence.
    + intro Hd. unfold constraints_okb in Hok. unfold spec_constraints_okb.
      rewrite <- (digits_okb_ascii U d Hd). now rewrite Hok.
Qed.

(** C1 as stated fails: four superscript twos are not four ASCII digits, so
    the first constraint of the specification does not hold, yet with the
    other fields in order the result is valid. *)
Lemma validate_accepts_superscript_digits :
  spec_constraints_okb unicode_excerpt
    superscript_twos john_smith main_street (lit "lost") = false
  /\ exists res,
       validate_card_details unicode_excerpt
         superscript_twos john_smith main_street (lit "lost") sample_rng
       = (Ok res, sample_rng)
       /\ dict_get "valid" res = Some (VBool true).
Proof.
  split; [reflexivity |].
  eexists. split; [apply validate_card_details_eq | reflexivity].
Qed.

(** C2 (as the code has it).  Whenever at least one of the four constraints
    fails (digits in the sense of [str.isdigit]) the validator returns the
    invalid result: [valid] false, status [validation_failed], and an error
    list that is non-empty and holds exactly one message per failing
    constraint in the order digits, name, address, reason. *)
Theorem validate_reports_every_failure
    (U : unicode_db) (d n a r : pystr) (g : rng) :
  constraints_okb U d n a r = false ->
  exists res,
    validate_card_details U d n a r g = (Ok res, g)
    /\ dict_get "valid" res = Some (VBool false)
    /\ dict_get "status" res = Some (VStr (lit "validation_failed"))
    /\ dict_get "errors" res = Some (VList (expected_errors U d n a r))
    /\ expected_errors U d n a r <> []
    /\ List.length (expected_errors U d n a r) = failing_constraints U d n a r.
Proof.
  intro Hok. eexists. split; [apply validate_card_details_eq |].
  rewrite Hok. repeat split.
  - intro He. apply expected_errors_nil in He. congruence.
  - apply expected_errors_length.
Qed.

(** The scenario of four bad fields: four messages, in order. *)
Lemma validate_reports_every_failure_witness :
  constraints_okb unicode_excerpt
    (lit "48") (lit "J") (lit "short") (lit "misplaced") = false
  /\ expected_errors unicode_excerpt
       (lit "48") (lit "J") (lit "short") (lit "misplaced")
     = [msg_digits; msg_name; msg_address; msg_reason]
  /\ exists res,
       validate_card_details unicode_excerpt
         (lit "48") (lit "J") (lit "short") (lit "misplaced") sample_rng
       = (Ok res, sample_rng)
       /\ dict_get "valid" res = Some (VBool false)
       /\ dict_get "status" res = Some (VStr (lit "validation_failed"))
       /\ dict_get "errors" res
          = Some (VList (expected_errors unicode_excerpt
                           (lit "48") (lit "J") (lit "short") (lit "misplaced")))
       /\ expected_errors unicode_excerpt
            (lit "48") (lit "J") (lit "short") (lit "misplaced") <> []
       /\ List.length (expected_errors unicode_excerpt
                         (lit "48") (lit "J") (lit "short") (lit "misplaced"))
          = failing_constraints unicode_excerpt
              (lit "48") (lit "J") (lit "short") (lit "misplaced").
Proof.
  split; [reflexivity |]. split; [reflexivity |].
  apply (validate_reports_every_failure unicode_excerpt
           (lit "48") (lit "J") (lit "short") (lit "misplaced") sample_rng).
  reflexivity.
Defined.

(** C2 as stated fails: the digits constraint of the specification fails
    on four superscript twos, and the validator returns the validated
    result with no error list. *)
Lemma validate_superscript_digits_unreported :
  spec_digits_okb superscript_twos = false
  /\ exists res,
       validate_card_details unicode_excerpt
         superscript_twos john_smith main_street (lit "expired") sample_rng
       = (Ok res, sample_rng)
       /\ dict_get "status" res = Some (VStr (lit "validated"))
       /\ dict_get "errors" res = None.
Proof.
  split; [reflexivity |].
  eexists. split; [apply validate_card_details_eq |]. split; reflexivity.
Qed.

(** C3 (as the code has it).  The validator reports no digit-field error
    exactly when the digits string has length 4 and each of its characters
    is a digit in the sense of [str.isdigit]; on an ASCII string that is
    exactly: four ASCII decimal digits. *)
Theorem digit_error_iff (U : unicode_db) (d n a r : pystr) (g : rng) :
  exists res,
    validate_card_details U d n a r g = (Ok res, g)
    /\ (~ In msg_digits (reported_errors res)
        <-> len d = 4%nat /\ Forall (fun c => ucd_isdigit U c = true) d)
    /\ (forallb is_ascii d = true ->
        (~ In msg_digits (reported_errors res)
         <-> len d = 4%nat /\ Forall (fun c => ascii_isdigit c = true) d)).
Proof.
  eexists. split; [apply validate_card_details_eq |].
  assert (Hrep : ~ In msg_digits
                     (reported_errors
                        (if constraints_okb U d n a r
                         then validated d (str_strip U n) (str_strip U a)
                                (str_lower U r)
                         else validation_failed (expected_errors U d n a r)))
                 <-> digits_okb U d = true).
  { destruct (constraints_okb U d n a r) eqn:Hok.
    - change (reported_errors (validated _ _ _ _)) with (@nil pystr).
      unfold constraints_okb in Hok. rewrite !andb_true_iff in Hok.
      split; [tauto | intros _ []].
    - change (reported_errors (validation_failed ?e)) with e.
      rewrite digit_error_expected. destruct (digits_okb U d); split; congruence. }
  split.
  - rewrite Hrep. apply digits_okb_spec.
  - intro Hd. rewrite Hrep, (digits_okb_ascii U d Hd). apply spec_digits_okb_spec.
Qed.

(** C3 as stated fails: superscript one, two, three, two draws no
    digit-field error and is not made of ASCII digits. *)
Lemma digit_error_absent_for_superscripts :
  (exists res,
     validate_card_details unicode_excerpt
       superscript_1232 john_smith main_street (lit "damaged") sample_rng
     = (Ok res, sample_rng)
     /\ ~ In msg_digits (reported_errors res))
  /\ ~ (len superscript_1232 = 4%nat
        /\ Forall (fun c => ascii_isdigit c = true) superscript_1232).
Proof.
  split.
  - eexists. split; [apply validate_card_details_eq |]. intros [].
  - intros [_ H]. inversion H as [| c l Hc _]. discriminate Hc.
Qed.

(** C4.  When all four constraints of the specification hold, the result is
    the valid one: the digits as given, name and address trimmed (the
    input is the trimmed string between two runs of whitespace, and the
    trimmed string has no whitespace at either end), and the reason
    lowered, which makes it one of the four allowed reasons. *)
Theorem validate_normalizes (U : unicode_db) (d n a r : pystr) (g : rng) :
  spec_constraints_okb U d n a r = true ->
  validate_card_details U d n a r g
  = (Ok (validated d (str_strip U n) (str_strip U a) (str_lower U r)), g)
  /\ trimmed_of U n (str_strip U n)
  /\ trimmed_of U a (str_strip U a)
  /\ In (str_lower U r) valid_reasons.
Proof.
  intro Hok. unfold spec_constraints_okb in Hok.
  rewrite !andb_true_iff in Hok. destruct Hok as [[[Hd Hn] Ha] Hr].
  split; [| split; [| split]].
  - rewrite validate_card_details_eq. unfold constraints_okb.
    now rewrite (spec_digits_okb_digits_okb U d Hd), Hn, Ha, Hr.
  - apply str_strip_trimmed.
  - apply str_strip_trimmed.
  - unfold reason_okb in Hr. apply andb_true_iff in Hr as [_ Hr].
    now apply str_in_In.
Qed.

Lemma validate_normalizes_witness :
  spec_constraints_okb unicode_excerpt
    (lit "4829") (lit "  John Smith ") main_street (lit "Lost") = true
  /\ validate_card_details unicode_excerpt
       (lit "4829") (lit "  John Smith ") main_street (lit "Lost") sample_rng
     = (Ok (validated (lit "4829")
              (str_strip unicode_excerpt (lit "  John Smith "))
              (str_strip unicode_excerpt main_street)
              (str_lower unicode_excerpt (lit "Lost"))), sample_rng)
  /\ trimmed_of unicode_excerpt (lit "  John Smith ")
       (str_strip unicode_excerpt (lit "  John Smith "))
  /\ trimmed_of unicode_excerpt main_street
       (str_strip unicode_excerpt main_street)
  /\ In (str_lower unicode_excerpt (lit "Lost")) valid_reasons.
Proof.
  split; [reflexivity |].
  apply (validate_normalizes unicode_excerpt
           (lit "4829") (lit "  John Smith ") main_street (lit "Lost") sample_rng).
  reflexivity.
Defined.

(** The normalised fields of that example. *)
Example validate_normalizes_example :
  str_strip unicode_excerpt (lit "  John Smith ") = john_smith
  /\ str_lower unicode_excerpt (lit "Lost") = lit "lost".
Proof. split; reflexivity. Qed.

(** C8.  The validator is deterministic and has no effect: for given
    inputs there is one result, returned whatever the state of the
    generator, which is left as it was; two calls in a row return that
    result twice. *)
Theorem validate_deterministic (U : unicode_db) (d n a r : pystr) :
  exists res,
    (forall g, validate_card_details U d n a r g = (Ok res, g))
    /\ (forall g,
          (x <- validate_card_details U d n a r ;;
           y <- validate_card_details U d n a r ;;
           ret (x, y)) g = (Ok (res, res), g)).
Proof.
  eexists. split.
  - intro g. apply validate_card_details_eq.
  - intro g. unfold bind. rewrite !validate_card_details_eq. reflexivity.
Qed.

(** ** Properties of the ticket issuer *)

(** C5.  For every input and every outcome of the generator, the ticket's
    [estimated_processing_days] is the table value of the lowered reason
    (lost 3, stolen 1, damaged 2, expired 5) and 3 for a reason that is not
    in the table; so it is one of 1, 2, 3, 5. *)
Theorem issue_estimated_processing_days
    (U : unicode_db) (d n a r : pystr) (g : rng) :
  rng_ok g ->
  exists t g' days,
    issue_replacement_ticket U d n a r g = (Ok t, g')
    /\ dict_get "estimated_processing_days" t = Some (VInt days)
    /\ (str_lower U r = lit "lost" -> days = 3%Z)
    /\ (str_lower U r = lit "stolen" -> days = 1%Z)
    /\ (str_lower U r = lit "damaged" -> days = 2%Z)
    /\ (str_lower U r = lit "expired" -> days = 5%Z)
    /\ (~ In (str_lower U r)
            [lit "lost"; lit "stolen"; lit "damaged"; lit "expired"] ->
        days = 3%Z)
    /\ In days [1%Z; 2%Z; 3%Z; 5%Z].
Proof.
  intro Hg.
  destruct (issue_replacement_ticket_eq U d n a r g Hg) as [suffix [_ [_ Heq]]].
  exists (ticket (lit "TICKET-" ++ suffix) d n r
            (get_default processing_days (str_lower U r) 3%Z)),
    (advance 8 g), (get_default processing_days (str_lower U r) 3%Z).
  split; [exact Heq |]. split; [reflexivity |].
  destruct (processing_days_lookup (str_lower U r))
    as [[E D] | [[E D] | [[E D] | [[E D] | [Hnot D]]]]]; rewrite D.
  1-4: rewrite E; repeat split;
    first [ reflexivity
          | cbn [In]; auto 6; fail
          | intro H;
            first [ reflexivity
                  | vm_compute in H; discriminate H
                  | exfalso; apply H; vm_compute; auto 6 ] ].
  repeat split;
    first [ reflexivity
          | cbn [In]; auto 6; fail
          | intro H;
            first [ reflexivity
                  | exfalso; apply Hnot; rewrite H; vm_compute; auto 6 ] ].
Qed.

Lemma issue_estimated_processing_days_witness :
  rng_ok sample_rng
  /\ exists t g' days,
       issue_replacement_ticket unicode_excerpt
         (lit "4829") john_smith main_street (lit "Damaged") sample_rng
       = (Ok t, g')
       /\ dict_get "estimated_processing_days" t = Some (VInt days)
       /\ (str_lower unicode_excerpt (lit "Damaged") = lit "lost" -> days = 3%Z)
       /\ (str_lower unicode_excerpt (lit "Damaged") = lit "stolen" -> days = 1%Z)
       /\ (str_lower unicode_excerpt (lit "Damaged") = lit "damaged" -> days = 2%Z)
       /\ (str_lower unicode_excerpt (lit "Damaged") = lit "expired" -> days = 5%Z)
       /\ (~ In (str_lower unicode_excerpt (lit "Damaged"))
               [lit "lost"; lit "stolen"; lit "damaged"; lit "expired"] ->
           days = 3%Z)
       /\ In days [1%Z; 2%Z; 3%Z; 5%Z].
Proof.
  split; [exact sample_rng_ok |].
  apply (issue_estimated_processing_days unicode_excerpt
           (lit "4829") john_smith main_street (lit "Damaged") sample_rng).
  exact sample_rng_ok.
Defined.

(** A reason outside the table, here [misplaced], gets the default. *)
Example issue_default_days :
  fst (issue_replacement_ticket unicode_excerpt
         (lit "4829") john_smith main_street (lit "misplaced") sample_rng)
  = Ok (ticket (lit "TICKET-AEJOTY38") (lit "4829") john_smith
          (lit "misplaced") 3).
Proof. vm_compute. reflexivity. Qed.

(** The confirmation message of that ticket. *)
Example issue_message :
  dict_get "message"
    (ticket (lit "TICKET-AEJOTY38") (lit "4829") john_smith (lit "misplaced") 3)
  = Some (VStr (lit "Replacement ticket TICKET-AEJOTY38 issued successfully. New card will arrive in 3 business days.")).
Proof. reflexivity. Qed.

(** C6.  For every input and every outcome of the generator, the ticket id
    is [TICKET-] followed by exactly eight characters, each a capital
    letter or a decimal digit of ASCII. *)
Theorem issue_ticket_id_pattern
    (U : unicode_db) (d n a r : pystr) (g : rng) :
  rng_ok g ->
  exists t g' id,
    issue_replacement_ticket U d n a r g = (Ok t, g')
    /\ dict_get "ticket_id" t = Some (VStr id)
    /\ ticket_id_pattern id.
Proof.
  intro Hg.
  destruct (issue_replacement_ticket_eq U d n a r g Hg)
    as [suffix [Hlen [Hall Heq]]].
  eexists _, _, (lit "TICKET-" ++ suffix).
  split; [exact Heq |]. split; [reflexivity |].
  exists suffix. repeat split; try assumption.
  apply Forall_forall. intros c Hc. apply alphabet_members.
  revert c Hc. now apply Forall_forall.
Qed.

Lemma issue_ticket_id_pattern_witness :
  rng_ok sample_rng
  /\ exists t g' id,
       issue_replacement_ticket unicode_excerpt
         (lit "4829") john_smith main_street (lit "lost") sample_rng
       = (Ok t, g')
       /\ dict_get "ticket_id" t = Some (VStr id)
       /\ ticket_id_pattern id.
Proof.
  split; [exact sample_rng_ok |].
  apply (issue_ticket_id_pattern unicode_excerpt
           (lit "4829") john_smith main_street (lit "lost") sample_rng).
  exact sample_rng_ok.
Defined.

(** The largest fraction still draws the last character, never one past
    the end of the population. *)
Example floor_mul_largest : floor_mul (two53 - 1) 36 = 35%Z.
Proof. reflexivity. Qed.

(** Unlike the validator, the issuer reads the generator: a generator one
    draw further gives another ticket id. *)
Example issue_reads_generator :
  fst (issue_replacement_ticket unicode_excerpt
         (lit "4829") john_smith main_street (lit "lost") sample_rng)
  <> fst (issue_replacement_ticket unicode_excerpt
            (lit "4829") john_smith main_street (lit "lost")
            (advance 1 sample_rng)).
Proof. vm_compute. discriminate. Qed.

(** C7.  With digits, name and address satisfying their constraints, the
    reason [STOLEN] validates and is normalised to [stolen]; a ticket
    issued from the validated fields has [estimated_processing_days] 1. *)
Theorem stolen_uppercase_scenario
    (U : unicode_db) (d n a : pystr) (g : rng) :
  spec_digits_okb d = true ->
  name_okb U n = true ->
  address_okb U a = true ->
  rng_ok g ->
  validate_card_details U d n a (lit "STOLEN") g
  = (Ok (validated d (str_strip U n) (str_strip U a) (lit "stolen")), g)
  /\ exists t g',
       issue_replacement_ticket U d (str_strip U n) (str_strip U a)
         (lit "stolen") g = (Ok t, g')
       /\ dict_get "replacement_reason" t = Some (VStr (lit "stolen"))
       /\ dict_get "estimated_processing_days" t = Some (VInt 1).
Proof.
  intros Hd Hn Ha Hg. split.
  - rewrite validate_card_details_eq. unfold constraints_okb.
    rewrite (spec_digits_okb_digits_okb U d Hd), Hn, Ha. reflexivity.
  - destruct (issue_replacement_ticket_eq U d (str_strip U n) (str_strip U a)
                (lit "stolen") g Hg) as [suffix [_ [_ Heq]]].
    eexists _, _. split; [exact Heq |]. split; reflexivity.
Qed.

Lemma stolen_uppercase_scenario_witness :
  spec_digits_okb (lit "4829") = true
  /\ name_okb unicode_excerpt john_smith = true
  /\ address_okb unicode_excerpt main_street = true
  /\ rng_ok sample_rng
  /\ validate_card_details unicode_excerpt
       (lit "4829") john_smith main_street (lit "STOLEN") sample_rng
     = (Ok (validated (lit "4829")
              (str_strip unicode_excerpt john_smith)
              (str_strip unicode_excerpt main_street) (lit "stolen")),
        sample_rng)
  /\ exists t g',
       issue_replacement_ticket unicode_excerpt (lit "4829")
         (str_strip unicode_excerpt john_smith)
         (str_strip unicode_excerpt main_street) (lit "stolen") sample_rng
       = (Ok t, g')
       /\ dict_get "replacement_reason" t = Some (VStr (lit "stolen"))
       /\ dict_get "estimated_processing_days" t = Some (VInt 1).
Proof.
  split; [reflexivity |]. split; [reflexivity |]. split; [reflexivity |].
  split; [exact sample_rng_ok |].
  apply (stolen_uppercase_scenario unicode_excerpt
           (lit "4829") john_smith main_street sample_rng);
    try reflexivity.
  exact sample_rng_ok.
Defined.

(** C9.  The ticket's [replacement_reason] is the argument, character for
    character, while the days come from its lowered form: issued straight
    from [STOLEN], the ticket says [STOLEN] and 1 day. *)
Theorem issue_echoes_reason
    (U : unicode_db) (d n a r : pystr) (g : rng) :
  rng_ok g ->
  (exists t g',
     issue_replacement_ticket U d n a r g = (Ok t, g')
     /\ dict_get "replacement_reason" t = Some (VStr r)
     /\ dict_get "estimated_processing_days" t
        = Some (VInt (get_default processing_days (str_lower U r) 3%Z)))
  /\ (exists t g',
        issue_replacement_ticket U d n a (lit "STOLEN") g = (Ok t, g')
        /\ dict_get "replacement_reason" t = Some (VStr (lit "STOLEN"))
        /\ dict_get "estimated_processing_days" t = Some (VInt 1)).
Proof.
  intro Hg. split.
  - destruct (issue_replacement_ticket_eq U d n a r g Hg)
      as [suffix [_ [_ Heq]]].
    eexists _, _. split; [exact Heq |]. split; reflexivity.
  - destruct (issue_replacement_ticket_eq U d n a (lit "STOLEN") g Hg)
      as [suffix [_ [_ Heq]]].
    eexists _, _. split; [exact Heq |]. split; reflexivity.
Qed.

Lemma issue_echoes_reason_witness :
  rng_ok sample_rng
  /\ (exists t g',
        issue_replacement_ticket unicode_excerpt
          (lit "4829") john_smith main_street (lit " Lost ") sample_rng
        = (Ok t, g')
        /\ dict_get "replacement_reason" t = Some (VStr (lit " Lost "))
        /\ dict_get "estimated_processing_days" t
           = Some (VInt (get_default processing_days
                           (str_lower unicode_excerpt (lit " Lost ")) 3%Z)))
  /\ (exists t g',
        issue_replacement_ticket unicode_excerpt
          (lit "4829") john_smith main_street (lit "STOLEN") sample_rng
        = (Ok t, g')
        /\ dict_get "replacement_reason" t = Some (VStr (lit "STOLEN"))
        /\ dict_get "estimated_processing_days" t = Some (VInt 1)).
Proof.
  split; [exact sample_rng_ok |].
  apply (issue_echoes_reason unicode_excerpt
           (lit "4829") john_smith main_street (lit " Lost ") sample_rng).
  exact sample_rng_ok.
Defined.

(** C10.  Both tools return on all strings, the empty string and strings
    outside ASCII included: neither raises, for any outcome of the
    generator, and the issuer's result has status [issued]. *)
Theorem tools_total (U : unicode_db) (d n a r : pystr) (g : rng) :
  rng_ok g ->
  (exists res, validate_card_details U d n a r g = (Ok res, g))
  /\ (exists t g',
        issue_replacement_ticket U d n a r g = (Ok t, g')
        /\ dict_get "status" t = Some (VStr (lit "issued"))).
Proof.
  intro Hg. split.
  - eexists. apply validate_card_details_eq.
  - destruct (issue_replacement_ticket_eq U d n a r g Hg)
      as [suffix [_ [_ Heq]]].
    eexists _, _. split; [exact Heq | reflexivity].
Qed.

Lemma tools_total_witness :
  rng_ok sample_rng
  /\ (exists res,
        validate_card_details unicode_excerpt
          [] (lit "   ") superscript_twos [0xC9; 0x1F600]%N sample_rng
        = (Ok res, sample_rng))
  /\ (exists t g',
        issue_replacement_ticket unicode_excerpt
          [] (lit "   ") superscript_twos [0xC9; 0x1F600]%N sample_rng
        = (Ok t, g')
        /\ dict_get "status" t = Some (VStr (lit "issued"))).
Proof.
  split; [exact sample_rng_ok |].
  apply (tools_total unicode_excerpt
           [] (lit "   ") superscript_twos [0xC9; 0x1F600]%N sample_rng).
  exact sample_rng_ok.
Defined.

(** ** More on trimming and lowering *)

Definition ascii_islower (c : codepoint) : bool :=
  ((97 <=? c) && (c <=? 122))%N.

Definition ascii_isalpha (c : codepoint) : bool :=
  ascii_isupper c || ascii_islower c.

Section TrimFacts.
Variable U : unicode_db.

Lemma lstrip_all_space (ws s : pystr) :
  all_space U ws -> lstrip U (ws ++ s) = lstrip U s.
Proof.
  induction 1 as [| c ws Hc _ IH]; [reflexivity |].
  cbn. now rewrite Hc.
Qed.

Lemma lstrip_nil_all_space (s : pystr) : lstrip U s = [] -> all_space U s.
Proof.
  induction s as [| c s IH]; cbn; [constructor |].
  destruct (ucd_isspace U c) eqn:Hc; [| discriminate].
  intro H. constructor; [exact Hc | exact (IH H)].
Qed.

Lemma lstrip_app (s t : pystr) :
  lstrip U s <> [] -> lstrip U (s ++ t) = lstrip U s ++ t.
Proof.
  induction s as [| c s IH]; cbn; [congruence |].
  destruct (ucd_isspace U c); [exact IH | reflexivity].
Qed.

Lemma all_space_rev (ws : pystr) : all_space U ws -> all_space U (rev ws).
Proof.
  unfold all_space. rewrite !Forall_forall. intros H c Hc.
  apply H. now apply in_rev.
Qed.

Lemma rstrip_all_space (s ws : pystr) :
  all_space U ws -> rstrip U (s ++ ws) = rstrip U s.
Proof.
  intro Hws. unfold rstrip. rewrite rev_app_distr.
  now rewrite (lstrip_all_space _ (rev s) (all_space_rev _ Hws)).
Qed.

(** Whitespace around a string does not change what [strip] returns. *)
Lemma str_strip_padding (pre s post : pystr) :
  all_space U pre -> all_space U post ->
  str_strip U (pre ++ s ++ post) = str_strip U s.
Proof.
  intros Hpre Hpost. unfold str_strip.
  rewrite (lstrip_all_space _ _ Hpre).
  destruct (lstrip U s) as [| c l] eqn:Hs.
  - apply lstrip_nil_all_space in Hs.
    rewrite (lstrip_all_space _ _ Hs).
    replace post with (post ++ []) by apply app_nil_r.
    now rewrite (lstrip_all_space _ _ Hpost).
  - rewrite lstrip_app by (rewrite Hs; discriminate).
    rewrite Hs. now apply rstrip_all_space.
Qed.

Lemma str_strip_all_space (s : pystr) : all_space U s -> str_strip U s = [].
Proof.
  intro Hs. unfold str_strip.
  replace s with (s ++ []) by apply app_nil_r.
  now rewrite (lstrip_all_space _ _ Hs).
Qed.

(** A string with no whitespace at either end is its own [strip]. *)
Lemma str_strip_fixed (t : pystr) :
  (forall c rest, t = c :: rest -> ucd_isspace U c = false) ->
  (forall c front, t = front ++ [c] -> ucd_isspace U c = false) ->
  str_strip U t = t.
Proof.
  intros Hhead Hlast. unfold str_strip.
  assert (Hl : lstrip U t = t).
  { destruct t as [| c rest]; [reflexivity |].
    cbn. now rewrite (Hhead c rest eq_refl). }
  rewrite Hl. unfold rstrip.
  destruct (rev t) as [| c l] eqn:Hr.
  - apply (f_equal (@rev codepoint)) in Hr. rewrite rev_involutive in Hr.
    now subst t.
  - assert (Ht : t = rev l ++ [c]).
    { apply (f_equal (@rev codepoint)) in Hr. now rewrite rev_involutive in Hr. }
    cbn. rewrite (Hlast c (rev l) Ht). cbn. now rewrite <- Ht.
Qed.

Lemma str_strip_idempotent (s : pystr) :
  str_strip U (str_strip U s) = str_strip U s.
Proof.
  destruct (str_strip_trimmed U s) as [_ [Hhead Hlast]].
  now apply str_strip_fixed.
Qed.

(** Lowering an ASCII letter gives a small letter only for a letter. *)
Lemma ascii_lower_islower (c : codepoint) :
  ascii_islower (ascii_lower c) = true -> ascii_isalpha c = true.
Proof.
  unfold ascii_isalpha, ascii_lower.
  destruct (ascii_isupper c); [reflexivity |]. now intros ->.
Qed.

(** The four reasons are made of small ASCII letters, and lowering leaves
    them as they are. *)
Lemma valid_reasons_lower (w : pystr) :
  In w valid_reasons ->
  w <> [] /\ str_lower U w = w /\ forallb ascii_islower w = true.
Proof.
  cbn [valid_reasons In].
  intros [<- | [<- | [<- | [<- | []]]]]; repeat split; discriminate.
Qed.

Lemma reason_okb_lowered (r : pystr) :
  reason_okb U r = true -> reason_okb U (str_lower U r) = true.
Proof.
  unfold reason_okb. rewrite !andb_true_iff. intros [_ Hin].
  pose proof Hin as Hin'. apply str_in_In in Hin'.
  destruct (valid_reasons_lower _ Hin') as [Hne [Hlow _]].
  rewrite Hlow. split; [| assumption].
  destruct (str_lower U r); [congruence | reflexivity].
Qed.

Lemma name_okb_strip (s : pystr) : name_okb U (str_strip U s) = name_okb U s.
Proof. unfold name_okb. now rewrite str_strip_idempotent. Qed.

Lemma address_okb_strip (s : pystr) :
  address_okb U (str_strip U s) = address_okb U s.
Proof. unfold address_okb. now rewrite str_strip_idempotent. Qed.

(** Which message is in the list tells which constraint failed. *)
Lemma expected_errors_members (d n a r : pystr) :
  (In msg_name (expected_errors U d n a r) <-> name_okb U n = false)
  /\ (In msg_address (expected_errors U d n a r) <-> address_okb U a = false)
  /\ (In msg_reason (expected_errors U d n a r) <-> reason_okb U r = false).
Proof.
  unfold expected_errors.
  destruct (digits_okb U d), (name_okb U n), (address_okb U a), (reason_okb U r);
    cbn [app In]; repeat split; intro H;
    try reflexivity; try discriminate H; auto 6;
    repeat (destruct H as [H | H]; [vm_compute in H; discriminate H |]);
    destruct H.
Qed.

End TrimFacts.

(** ** Further properties of the validator *)

(** The result of a call, its flag and its error list, in terms of the
    constraints. *)
Lemma validate_reported_errors (U : unicode_db) (d n a r : pystr) (g : rng) :
  exists res,
    validate_card_details U d n a r g = (Ok res, g)
    /\ dict_get "valid" res = Some (VBool (constraints_okb U d n a r))
    /\ reported_errors res = expected_errors U d n a r.
Proof.
  eexists. split; [apply validate_card_details_eq |].
  destruct (constraints_okb U d n a r) eqn:Hok.
  - split; [reflexivity |]. symmetry. now apply expected_errors_nil.
  - split; reflexivity.
Qed.

Lemma forallb_islower_lowered (r : pystr) :
  forallb ascii_islower (List.map ascii_lower r) = true ->
  forallb ascii_isalpha r = true.
Proof.
  induction r as [| c r IH]; [reflexivity |].
  cbn. rewrite !andb_true_iff. intros [Hc Hr].
  split; [now apply ascii_lower_islower | now apply IH].
Qed.

(** A result flagged valid is the valid shape, and its fields meet the
    constraints: the digits are the input, of length 4 and all digits; name
    and address are the trimmed inputs, of at least 2 and 10 characters;
    the reason is one of the four allowed, in small letters. *)
Theorem valid_result_fields
    (U : unicode_db) (d n a r : pystr) (g g' : rng) (res : pydict) :
  validate_card_details U d n a r g = (Ok res, g') ->
  dict_get "valid" res = Some (VBool true) ->
  exists n' a' r',
    res = validated d n' a' r'
    /\ len d = 4%nat /\ Forall (fun c => ucd_isdigit U c = true) d
    /\ trimmed_of U n n' /\ (2 <= len n')%nat
    /\ trimmed_of U a a' /\ (10 <= len a')%nat
    /\ In r' valid_reasons.
Proof.
  intros Hcall Hvalid. rewrite validate_card_details_eq in Hcall.
  injection Hcall as <- _.
  destruct (constraints_okb U d n a r) eqn:Hok; [| discriminate Hvalid].
  unfold constraints_okb in Hok. rewrite !andb_true_iff in Hok.
  destruct Hok as [[[Hd Hn] Ha] Hr].
  apply digits_okb_spec in Hd as [Hlen Hdig].
  unfold name_okb in Hn. apply andb_true_iff in Hn as [_ Hn].
  unfold address_okb in Ha. apply andb_true_iff in Ha as [_ Ha].
  unfold reason_okb in Hr. apply andb_true_iff in Hr as [_ Hr].
  exists (str_strip U n), (str_strip U a), (str_lower U r).
  repeat split; try assumption; try apply str_strip_trimmed.
  - now apply Nat.leb_le.
  - now apply Nat.leb_le.
  - now apply str_in_In.
Qed.

Lemma valid_result_fields_witness :
  exists n' a' r',
    validated (lit "4829") (lit "J. Doe") main_street (lit "expired")
    = validated (lit "4829") n' a' r'
    /\ len (lit "4829") = 4%nat
    /\ Forall (fun c => ucd_isdigit unicode_excerpt c = true) (lit "4829")
    /\ trimmed_of unicode_excerpt (lit " J. Doe") n' /\ (2 <= len n')%nat
    /\ trimmed_of unicode_excerpt main_street a' /\ (10 <= len a')%nat
    /\ In r' valid_reasons.
Proof.
  apply (valid_result_fields unicode_excerpt
           (lit "4829") (lit " J. Doe") main_street (lit "Expired")
           sample_rng sample_rng).
  - reflexivity.
  - reflexivity.
Defined.

(** Normalisation is idempotent: validating the normalised fields of an
    accepted request gives the same valid result again. *)
Theorem validate_normalized_again
    (U : unicode_db) (d n a r : pystr) (g : rng) :
  constraints_okb U d n a r = true ->
  validate_card_details U d (str_strip U n) (str_strip U a) (str_lower U r) g
  = validate_card_details U d n a r g.
Proof.
  intro Hok. rewrite !validate_card_details_eq.
  pose proof Hok as Hok'. unfold constraints_okb in Hok'.
  rewrite !andb_true_iff in Hok'. destruct Hok' as [[[Hd Hn] Ha] Hr].
  assert (Hagain : constraints_okb U d (str_strip U n) (str_strip U a)
                     (str_lower U r) = true).
  { unfold constraints_okb.
    now rewrite name_okb_strip, address_okb_strip, (reason_okb_lowered U r Hr),
      Hd, Hn, Ha. }
  rewrite Hagain, Hok, !str_strip_idempotent.
  unfold reason_okb in Hr. apply andb_true_iff in Hr as [_ Hr].
  apply str_in_In in Hr.
  destruct (valid_reasons_lower U _ Hr) as [_ [-> _]]. reflexivity.
Qed.

Lemma validate_normalized_again_witness :
  constraints_okb unicode_excerpt
    (lit "4829") (lit "  John Smith ") main_street (lit "DaMaGeD") = true
  /\ validate_card_details unicode_excerpt (lit "4829")
       (str_strip unicode_excerpt (lit "  John Smith "))
       (str_strip unicode_excerpt main_street)
       (str_lower unicode_excerpt (lit "DaMaGeD")) sample_rng
     = validate_card_details unicode_excerpt
         (lit "4829") (lit "  John Smith ") main_street (lit "DaMaGeD")
         sample_rng.
Proof.
  split; [reflexivity |].
  apply (validate_normalized_again unicode_excerpt
           (lit "4829") (lit "  John Smith ") main_street (lit "DaMaGeD")
           sample_rng).
  reflexivity.
Defined.

(** Whitespace before and after the name and the address does not change
    the result, be it valid or not. *)
Theorem validate_ignores_padding
    (U : unicode_db) (d n a r pre post pre' post' : pystr) (g : rng) :
  all_space U pre -> all_space U post ->
  all_space U pre' -> all_space U post' ->
  validate_card_details U d (pre ++ n ++ post) (pre' ++ a ++ post') r g
  = validate_card_details U d n a r g.
Proof.
  intros H1 H2 H3 H4. rewrite !validate_card_details_eq.
  unfold constraints_okb, expected_errors, name_okb, address_okb.
  now rewrite (str_strip_padding U _ n _ H1 H2), (str_strip_padding U _ a _ H3 H4).
Qed.

Lemma validate_ignores_padding_witness :
  all_space unicode_excerpt (lit "  ")
  /\ all_space unicode_excerpt [9; 0xA0]%N
  /\ all_space unicode_excerpt []
  /\ all_space unicode_excerpt [0x3000; 10]%N
  /\ validate_card_details unicode_excerpt (lit "4829")
       (lit "  " ++ lit "J" ++ [9; 0xA0]%N)
       ([] ++ main_street ++ [0x3000; 10]%N) (lit "lost") sample_rng
     = validate_card_details unicode_excerpt
         (lit "4829") (lit "J") main_street (lit "lost") sample_rng.
Proof.
  assert (H1 : all_space unicode_excerpt (lit "  "))
    by (repeat constructor).
  assert (H2 : all_space unicode_excerpt [9; 0xA0]%N)
    by (repeat constructor).
  assert (H3 : all_space unicode_excerpt []) by constructor.
  assert (H4 : all_space unicode_excerpt [0x3000; 10]%N)
    by (repeat constructor).
  repeat (split; [assumption |]).
  exact (validate_ignores_padding unicode_excerpt (lit "4829") (lit "J")
           main_street (lit "lost") (lit "  ") [9; 0xA0]%N [] [0x3000; 10]%N
           sample_rng H1 H2 H3 H4).
Defined.

(** A name or an address that is empty or all whitespace is rejected, with
    the message of that field. *)
Theorem blank_fields_rejected
    (U : unicode_db) (d n a r : pystr) (g : rng) :
  all_space U n \/ all_space U a ->
  exists res,
    validate_card_details U d n a r g = (Ok res, g)
    /\ dict_get "valid" res = Some (VBool false)
    /\ (all_space U n -> In msg_name (reported_errors res))
    /\ (all_space U a -> In msg_address (reported_errors res)).
Proof.
  intro Hblank.
  destruct (validate_reported_errors U d n a r g) as [res [Hcall [Hflag Herr]]].
  exists res. split; [exact Hcall |].
  destruct (expected_errors_members U d n a r) as [Hname [Haddr _]].
  assert (Hn : all_space U n -> name_okb U n = false).
  { intro Hs. unfold name_okb. now rewrite (str_strip_all_space U _ Hs). }
  assert (Ha : all_space U a -> address_okb U a = false).
  { intro Hs. unfold address_okb. now rewrite (str_strip_all_space U _ Hs). }
  repeat split.
  - rewrite Hflag. unfold constraints_okb.
    destruct Hblank as [Hs | Hs]; [rewrite (Hn Hs) | rewrite (Ha Hs)];
      now rewrite ?andb_false_r.
  - intro Hs. rewrite Herr. apply Hname. auto.
  - intro Hs. rewrite Herr. apply Haddr. auto.
Qed.

Lemma blank_fields_rejected_witness :
  (all_space unicode_excerpt [] \/ all_space unicode_excerpt (lit " "))
  /\ exists res,
       validate_card_details unicode_excerpt
         (lit "4829") [] (lit " ") (lit "lost") sample_rng
       = (Ok res, sample_rng)
       /\ dict_get "valid" res = Some (VBool false)
       /\ (all_space unicode_excerpt [] -> In msg_name (reported_errors res))
       /\ (all_space unicode_excerpt (lit " ") ->
           In msg_address (reported_errors res)).
Proof.
  assert (H : all_space unicode_excerpt [] \/ all_space unicode_excerpt (lit " "))
    by (left; constructor).
  split; [exact H |].
  exact (blank_fields_rejected unicode_excerpt (lit "4829") [] (lit " ")
           (lit "lost") sample_rng H).
Defined.

(** The error list can be read back: the name, address and reason messages
    are in it exactly when the respective constraint fails. *)
Theorem errors_identify_failures
    (U : unicode_db) (d n a r : pystr) (g : rng) :
  exists res,
    validate_card_details U d n a r g = (Ok res, g)
    /\ (In msg_name (reported_errors res) <-> name_okb U n = false)
    /\ (In msg_address (reported_errors res) <-> address_okb U a = false)
    /\ (In msg_reason (reported_errors res) <-> reason_okb U r = false).
Proof.
  destruct (validate_reported_errors U d n a r g) as [res [Hcall [_ Herr]]].
  exists res. split; [exact Hcall |]. rewrite Herr.
  apply expected_errors_members.
Qed.

(** The reason is not trimmed: an ASCII reason with any character that is
    not a letter, a blank before or after the word included, is rejected. *)
Theorem nonletter_reason_rejected
    (U : unicode_db) (d n a r : pystr) (g : rng) :
  forallb is_ascii r = true ->
  existsb (fun c => negb (ascii_isalpha c)) r = true ->
  exists res,
    validate_card_details U d n a r g = (Ok res, g)
    /\ dict_get "valid" res = Some (VBool false)
    /\ In msg_reason (reported_errors res).
Proof.
  intros Hascii Hbad.
  assert (Hr : reason_okb U r = false).
  { destruct (reason_okb U r) eqn:Hok; [| reflexivity]. exfalso.
    unfold reason_okb in Hok. apply andb_true_iff in Hok as [_ Hin].
    apply str_in_In in Hin.
    destruct (valid_reasons_lower U _ Hin) as [_ [_ Hlow]].
    rewrite (str_lower_ascii U r Hascii) in Hlow.
    apply forallb_islower_lowered in Hlow.
    apply existsb_exists in Hbad as [c [Hc Hneg]].
    rewrite forallb_forall in Hlow. rewrite (Hlow c Hc) in Hneg.
    discriminate Hneg. }
  destruct (validate_reported_errors U d n a r g) as [res [Hcall [Hflag Herr]]].
  exists res. split; [exact Hcall |]. split.
  - rewrite Hflag. unfold constraints_okb. now rewrite Hr, andb_false_r.
  - rewrite Herr. now apply (expected_errors_members U d n a r).
Qed.

Lemma nonletter_reason_rejected_witness :
  forallb is_ascii (lit " lost") = true
  /\ existsb (fun c => negb (ascii_isalpha c)) (lit " lost") = true
  /\ exists res,
       validate_card_details unicode_excerpt
         (lit "4829") john_smith main_street (lit " lost") sample_rng
       = (Ok res, sample_rng)
       /\ dict_get "valid" res = Some (VBool false)
       /\ In msg_reason (reported_errors res).
Proof.
  split; [reflexivity |]. split; [reflexivity |].
  apply (nonletter_reason_rejected unicode_excerpt
           (lit "4829") john_smith main_street (lit " lost") sample_rng);
    reflexivity.
Defined.

(** ** Further properties of the ticket issuer *)

(** The fraction whose product with 36.0 floors to index [j]. *)
Definition fraction_for (j : Z) : Z := ((j * two53 + 35) / 36)%Z.

(** A generator that yields the listed fractions, then zeros. *)
Definition rng_of (ks : list Z) : rng := fun i => nth i ks 0%Z.

Section DrawFacts.

Lemma getitem_pure {A : Type} (l : list A) (i : Z) :
  exists o, forall g, getitem l i g = (o, g).
Proof.
  unfold getitem.
  destruct ((0 <=? (if (i <? 0)%Z then (i + Z.of_nat (List.length l))%Z else i))%Z
            && ((if (i <? 0)%Z then (i + Z.of_nat (List.length l))%Z else i)
                <? Z.of_nat (List.length l))%Z).
  - destruct (nth_error l _) as [x |]; eexists; intro g; reflexivity.
  - eexists; intro g; reflexivity.
Qed.

(** One more choice: a draw, the indexing, then the remaining choices. *)
Lemma choices_S {A : Type} (population : list A) (k : nat) (g : rng) :
  choices population (S k) g =
  match getitem population
          (floor_mul (g 0%nat) (Z.of_nat (List.length population)))
          (fun i => g (S i)) with
  | (Ok x, g1) =>
      match choices population k g1 with
      | (Ok rest, g2) => (Ok (x :: rest), g2)
      | (Raise e, g2) => (Raise e, g2)
      end
  | (Raise e, g1) => (Raise e, g1)
  end.
Proof. reflexivity. Qed.

(** The outcome of [k] choices is a function of the first [k] draws. *)
Lemma choices_agree {A : Type} (population : list A) (k : nat) :
  forall g g',
    (forall i, (i < k)%nat -> g i = g' i) ->
    fst (choices population k g) = fst (choices population k g').
Proof.
  induction k as [| k IH]; intros g g' Hagree; [reflexivity |].
  rewrite !choices_S. rewrite <- (Hagree 0%nat) by lia.
  destruct (getitem_pure population
              (floor_mul (g 0%nat) (Z.of_nat (List.length population))))
    as [o Ho].
  rewrite !Ho.
  destruct o as [x | e]; [| reflexivity].
  specialize (IH (fun i => g (S i)) (fun i => g' (S i))).
  assert (Hrest : forall i, (i < k)%nat -> g (S i) = g' (S i))
    by (intros i Hi; apply Hagree; lia).
  specialize (IH Hrest).
  destruct (choices population k (fun i => g (S i))) as [[l | e] g1];
    destruct (choices population k (fun i => g' (S i))) as [[l' | e'] g1'];
    cbn in IH |- *; congruence.
Qed.

(** The issuer is the eight choices followed by the dictionary. *)
Lemma issue_via_choices (U : unicode_db) (d n a r : pystr) (g : rng) :
  issue_replacement_ticket U d n a r g =
  match choices (ascii_uppercase ++ digits) 8 g with
  | (Ok suffix, g') =>
      (Ok (ticket (lit "TICKET-" ++ suffix) d n r
             (get_default processing_days (str_lower U r) 3%Z)), g')
  | (Raise e, g') => (Raise e, g')
  end.
Proof.
  unfold issue_replacement_ticket, bind.
  destruct (choices (ascii_uppercase ++ digits) 8 g) as [[suffix | e] g'];
    [| reflexivity].
  rewrite join_singletons. reflexivity.
Qed.

Lemma rng_ok_advance (k : nat) (g : rng) : rng_ok g -> rng_ok (advance k g).
Proof. intros Hg i. apply Hg. Qed.

Lemma fraction_for_index (j : Z) :
  (0 <= j < 36)%Z ->
  (0 <= fraction_for j < two53)%Z /\ floor_mul (fraction_for j) 36 = j.
Proof.
  intro Hj.
  assert (Hall : forallb
                   (fun j => (0 <=? fraction_for j)%Z
                             && (fraction_for j <? two53)%Z
                             && (floor_mul (fraction_for j) 36 =? j)%Z)
                   (List.map Z.of_nat (seq 0 36)) = true)
    by (vm_compute; reflexivity).
  rewrite forallb_forall in Hall.
  specialize (Hall j). rewrite !andb_true_iff in Hall.
  destruct Hall as [[H0 H1] H2].
  - apply in_map_iff. exists (Z.to_nat j). split; [lia |].
    apply in_seq. lia.
  - apply Z.leb_le in H0. apply Z.ltb_lt in H1. apply Z.eqb_eq in H2. auto.
Qed.

Lemma getitem_nth {A : Type} (l : list A) (j : nat) (x : A) (g : rng) :
  nth_error l j = Some x -> getitem l (Z.of_nat j) g = (Ok x, g).
Proof.
  intro Hx. unfold getitem.
  assert (Hj : (j < List.length l)%nat)
    by (apply nth_error_Some; congruence).
  destruct (Z.ltb_spec (Z.of_nat j) 0); [lia |].
  destruct (Z.leb_spec 0 (Z.of_nat j)); [| lia].
  destruct (Z.ltb_spec (Z.of_nat j) (Z.of_nat (List.length l))); [| lia].
  cbn [andb]. now rewrite Nat2Z.id, Hx.
Qed.

(** Every sequence over a population of 36 is the outcome of some
    generator. *)
Lemma choices_reach {A : Type} (population : list A) (l : list A) :
  List.length population = 36%nat ->
  Forall (fun x => In x population) l ->
  exists ks,
    rng_ok (rng_of ks)
    /\ fst (choices population (List.length l) (rng_of ks)) = Ok l.
Proof.
  intros Hn. induction 1 as [| x l Hx _ [ks [Hok Hks]]].
  - exists []. split; [| reflexivity].
    intro i. unfold rng_of. destruct i; cbn; unfold two53; lia.
  - apply In_nth_error in Hx as [j Hj].
    assert (Hlt : (j < 36)%nat)
      by (rewrite <- Hn; apply nth_error_Some; congruence).
    destruct (fraction_for_index (Z.of_nat j)) as [Hrange Hidx]; [lia |].
    exists (fraction_for (Z.of_nat j) :: ks). split.
    + intros [| i]; [exact Hrange | exact (Hok i)].
    + cbn [List.length]. rewrite choices_S.
      change (rng_of (fraction_for (Z.of_nat j) :: ks) 0%nat)
        with (fraction_for (Z.of_nat j)).
      rewrite Hn. change (Z.of_nat 36) with 36%Z. rewrite Hidx.
      rewrite (getitem_nth population j x _ Hj).
      change (fun i => rng_of (fraction_for (Z.of_nat j) :: ks) (S i))
        with (rng_of ks).
      destruct (choices population (List.length l) (rng_of ks)) as [[l' | e] g'];
        cbn in Hks |- *; congruence.
Qed.

End DrawFacts.

(** The address plays no part in a ticket: another address gives the same
    ticket, and the ticket has no [address] entry; the name and the digits
    are the arguments as given. *)
Theorem issue_ignores_address
    (U : unicode_db) (d n a a' r : pystr) (g g' : rng) (t : pydict) :
  issue_replacement_ticket U d n a r g = (Ok t, g') ->
  issue_replacement_ticket U d n a' r g = (Ok t, g')
  /\ dict_get "address" t = None
  /\ dict_get "cardholder_name" t = Some (VStr n)
  /\ dict_get "last_four_digits" t = Some (VStr d).
Proof.
  rewrite !issue_via_choices.
  destruct (choices (ascii_uppercase ++ digits) 8 g) as [[suffix | e] g1];
    [| discriminate].
  intros [= <- <-]. repeat split; reflexivity.
Qed.

Lemma issue_ignores_address_witness :
  issue_replacement_ticket unicode_excerpt
    (lit "4829") john_smith (lit "elsewhere") (lit "lost") sample_rng
  = (Ok (ticket (lit "TICKET-AEJOTY38") (lit "4829") john_smith (lit "lost") 3),
     advance 8 sample_rng)
  /\ dict_get "address"
       (ticket (lit "TICKET-AEJOTY38") (lit "4829") john_smith (lit "lost") 3)
     = None
  /\ dict_get "cardholder_name"
       (ticket (lit "TICKET-AEJOTY38") (lit "4829") john_smith (lit "lost") 3)
     = Some (VStr john_smith)
  /\ dict_get "last_four_digits"
       (ticket (lit "TICKET-AEJOTY38") (lit "4829") john_smith (lit "lost") 3)
     = Some (VStr (lit "4829")).
Proof.
  apply (issue_ignores_address unicode_excerpt
           (lit "4829") john_smith main_street (lit "elsewhere") (lit "lost")
           sample_rng).
  vm_compute. reflexivity.
Defined.

(** A ticket is a function of the next eight draws: generators that agree
    on them give the same ticket. *)
Theorem issue_reads_eight_draws
    (U : unicode_db) (d n a r : pystr) (g g' : rng) :
  (forall i, (i < 8)%nat -> g i = g' i) ->
  fst (issue_replacement_ticket U d n a r g)
  = fst (issue_replacement_ticket U d n a r g').
Proof.
  intro Hagree. rewrite !issue_via_choices.
  pose proof (choices_agree (ascii_uppercase ++ digits) 8 g g' Hagree) as H.
  destruct (choices (ascii_uppercase ++ digits) 8 g) as [[s | e] g1];
    destruct (choices (ascii_uppercase ++ digits) 8 g') as [[s' | e'] g1'];
    cbn in H |- *; congruence.
Qed.

Lemma issue_reads_eight_draws_witness :
  (forall i, (i < 8)%nat ->
     sample_rng i = (fun k => if (k <? 8)%nat then sample_rng k else 0%Z) i)
  /\ fst (issue_replacement_ticket unicode_excerpt
            (lit "4829") john_smith main_street (lit "lost") sample_rng)
     = fst (issue_replacement_ticket unicode_excerpt
              (lit "4829") john_smith main_street (lit "lost")
              (fun k => if (k <? 8)%nat then sample_rng k else 0%Z)).
Proof.
  assert (H : forall i, (i < 8)%nat ->
                sample_rng i
                = (fun k => if (k <? 8)%nat then sample_rng k else 0%Z) i).
  { intros i Hi. cbv beta. destruct (Nat.ltb_spec i 8); [reflexivity | lia]. }
  split; [exact H |].
  exact (issue_reads_eight_draws unicode_excerpt
           (lit "4829") john_smith main_street (lit "lost") sample_rng _ H).
Defined.

(** Two tickets in a row: the first is made from draws 0 to 7, the second
    from draws 8 to 15, and the generator ends 16 draws further. *)
Theorem successive_tickets
    (U : unicode_db) (d1 n1 a1 r1 d2 n2 a2 r2 : pystr) (g : rng) :
  rng_ok g ->
  exists t1 t2,
    issue_replacement_ticket U d1 n1 a1 r1 g = (Ok t1, advance 8 g)
    /\ issue_replacement_ticket U d2 n2 a2 r2 (advance 8 g)
       = (Ok t2, advance 16 g)
    /\ (x <- issue_replacement_ticket U d1 n1 a1 r1 ;;
        y <- issue_replacement_ticket U d2 n2 a2 r2 ;;
        ret (x, y)) g = (Ok (t1, t2), advance 16 g).
Proof.
  intro Hg.
  destruct (issue_replacement_ticket_eq U d1 n1 a1 r1 g Hg)
    as [s1 [_ [_ H1]]].
  destruct (issue_replacement_ticket_eq U d2 n2 a2 r2 (advance 8 g)
              (rng_ok_advance 8 g Hg)) as [s2 [_ [_ H2]]].
  change (advance 8 (advance 8 g)) with (advance 16 g) in H2.
  eexists _, _. split; [exact H1 |]. split; [exact H2 |].
  unfold bind. rewrite H1, H2. reflexivity.
Qed.

Lemma successive_tickets_witness :
  rng_ok sample_rng
  /\ exists t1 t2,
       issue_replacement_ticket unicode_excerpt
         (lit "4829") john_smith main_street (lit "lost") sample_rng
       = (Ok t1, advance 8 sample_rng)
       /\ issue_replacement_ticket unicode_excerpt
            (lit "0007") (lit "Ann Lee") main_street (lit "stolen")
            (advance 8 sample_rng)
          = (Ok t2, advance 16 sample_rng)
       /\ (x <- issue_replacement_ticket unicode_excerpt
                  (lit "4829") john_smith main_street (lit "lost") ;;
           y <- issue_replacement_ticket unicode_excerpt
                  (lit "0007") (lit "Ann Lee") main_street (lit "stolen") ;;
           ret (x, y)) sample_rng = (Ok (t1, t2), advance 16 sample_rng).
Proof.
  split; [exact sample_rng_ok |].
  apply (successive_tickets unicode_excerpt
           (lit "4829") john_smith main_street (lit "lost")
           (lit "0007") (lit "Ann Lee") main_street (lit "stolen") sample_rng).
  exact sample_rng_ok.
Defined.

(** Ticket ids are not kept apart: when the generator repeats its eight
    draws, two tickets issued in a row carry the same id. *)
Theorem ticket_ids_can_collide
    (U : unicode_db) (d1 n1 a1 r1 d2 n2 a2 r2 : pystr) (g : rng) :
  rng_ok g ->
  (forall i, (i < 8)%nat -> g (8 + i)%nat = g i) ->
  exists t1 t2 g' id,
    (x <- issue_replacement_ticket U d1 n1 a1 r1 ;;
     y <- issue_replacement_ticket U d2 n2 a2 r2 ;;
     ret (x, y)) g = (Ok (t1, t2), g')
    /\ dict_get "ticket_id" t1 = Some (VStr id)
    /\ dict_get "ticket_id" t2 = Some (VStr id).
Proof.
  intros Hg Hrep.
  destruct (choices_36 (ascii_uppercase ++ digits) 8 alphabet_length g Hg)
    as [s1 [H1 _]].
  destruct (choices_36 (ascii_uppercase ++ digits) 8 alphabet_length
              (advance 8 g) (rng_ok_advance 8 g Hg)) as [s2 [H2 _]].
  assert (Hsame : s2 = s1).
  { pose proof (choices_agree (ascii_uppercase ++ digits) 8 (advance 8 g) g
                  Hrep) as H.
    rewrite H1, H2 in H. cbn in H. congruence. }
  subst s2.
  eexists _, _, _, (lit "TICKET-" ++ s1). split.
  - unfold bind. rewrite (issue_via_choices U d1 n1 a1 r1 g), H1.
    rewrite (issue_via_choices U d2 n2 a2 r2 (advance 8 g)), H2. reflexivity.
  - split; reflexivity.
Qed.

Lemma ticket_ids_can_collide_witness :
  rng_ok (fun _ => 4503599627370496%Z)
  /\ (forall i, (i < 8)%nat ->
        (fun _ : nat => 4503599627370496%Z) (8 + i)%nat
        = (fun _ : nat => 4503599627370496%Z) i)
  /\ exists t1 t2 g' id,
       (x <- issue_replacement_ticket unicode_excerpt
               (lit "4829") john_smith main_street (lit "lost") ;;
        y <- issue_replacement_ticket unicode_excerpt
               (lit "0007") (lit "Ann Lee") main_street (lit "stolen") ;;
        ret (x, y)) (fun _ => 4503599627370496%Z) = (Ok (t1, t2), g')
       /\ dict_get "ticket_id" t1 = Some (VStr id)
       /\ dict_get "ticket_id" t2 = Some (VStr id).
Proof.
  assert (Hg : rng_ok (fun _ => 4503599627370496%Z))
    by (intro i; unfold two53; lia).
  assert (Hrep : forall i, (i < 8)%nat ->
                   (fun _ : nat => 4503599627370496%Z) (8 + i)%nat
                   = (fun _ : nat => 4503599627370496%Z) i)
    by (intros; reflexivity).
  split; [exact Hg |]. split; [exact Hrep |].
  exact (ticket_ids_can_collide unicode_excerpt
           (lit "4829") john_smith main_street (lit "lost")
           (lit "0007") (lit "Ann Lee") main_street (lit "stolen") _ Hg Hrep).
Defined.

(** Every id of the pattern can come out: for each eight characters of
    [[A-Z0-9]] some generator makes the issuer return [TICKET-] followed by
    exactly them. *)
Theorem every_ticket_id_reachable
    (U : unicode_db) (d n a r suffix : pystr) :
  List.length suffix = 8%nat ->
  Forall (fun c => ascii_isupper c = true \/ ascii_isdigit c = true) suffix ->
  exists g t g',
    rng_ok g
    /\ issue_replacement_ticket U d n a r g = (Ok t, g')
    /\ dict_get "ticket_id" t = Some (VStr (lit "TICKET-" ++ suffix)).
Proof.
  intros Hlen Hchars.
  assert (Hin : Forall (fun c => In c (ascii_uppercase ++ digits)) suffix).
  { apply Forall_forall. intros c Hc. apply alphabet_members.
    revert c Hc. now apply Forall_forall. }
  destruct (choices_reach (ascii_uppercase ++ digits) suffix alphabet_length Hin)
    as [ks [Hok Hks]].
  rewrite Hlen in Hks.
  exists (rng_of ks). rewrite issue_via_choices.
  destruct (choices (ascii_uppercase ++ digits) 8 (rng_of ks))
    as [[s | e] g'] eqn:Hc; cbn in Hks; [| discriminate Hks].
  injection Hks as ->.
  eexists _, _. split; [exact Hok |]. split; reflexivity.
Qed.

Lemma every_ticket_id_reachable_witness :
  List.length (lit "Z9A0QX42") = 8%nat
  /\ Forall (fun c => ascii_isupper c = true \/ ascii_isdigit c = true)
       (lit "Z9A0QX42")
  /\ exists g t g',
       rng_ok g
       /\ issue_replacement_ticket unicode_excerpt
            (lit "4829") john_smith main_street (lit "lost") g = (Ok t, g')
       /\ dict_get "ticket_id" t
          = Some (VStr (lit "TICKET-" ++ lit "Z9A0QX42")).
Proof.
  assert (H : Forall (fun c => ascii_isupper c = true \/ ascii_isdigit c = true)
                (lit "Z9A0QX42")).
  { repeat constructor; (left; reflexivity) || (right; reflexivity). }
  split; [reflexivity |]. split; [exact H |].
  exact (every_ticket_id_reachable unicode_excerpt
           (lit "4829") john_smith main_street (lit "lost") (lit "Z9A0QX42")
           eq_refl H).
Defined.

(** Validate, then issue from the validated fields: for every accepted
    request the ticket's reason is one of the four allowed, and its days
    are that reason's table entry, never the fallback. *)
Theorem validated_ticket_days
    (U : unicode_db) (d n a r : pystr) (g : rng) :
  constraints_okb U d n a r = true ->
  rng_ok g ->
  exists n' a' r' t g',
    validate_card_details U d n a r g = (Ok (validated d n' a' r'), g)
    /\ issue_replacement_ticket U d n' a' r' g = (Ok t, g')
    /\ dict_get "replacement_reason" t = Some (VStr r')
    /\ ((r' = lit "lost"
         /\ dict_get "estimated_processing_days" t = Some (VInt 3))
        \/ (r' = lit "stolen"
            /\ dict_get "estimated_processing_days" t = Some (VInt 1))
        \/ (r' = lit "damaged"
            /\ dict_get "estimated_processing_days" t = Some (VInt 2))
        \/ (r' = lit "expired"
            /\ dict_get "estimated_processing_days" t = Some (VInt 5))).
Proof.
  intros Hok Hg.
  exists (str_strip U n), (str_strip U a), (str_lower U r).
  destruct (issue_replacement_ticket_eq U d (str_strip U n) (str_strip U a)
              (str_lower U r) g Hg) as [suffix [_ [_ Heq]]].
  eexists _, _. split; [| split; [exact Heq | split; [reflexivity |]]].
  - rewrite validate_card_details_eq. now rewrite Hok.
  - unfold constraints_okb in Hok. rewrite !andb_true_iff in Hok.
    destruct Hok as [_ Hr]. unfold reason_okb in Hr.
    apply andb_true_iff in Hr as [_ Hr]. apply str_in_In in Hr.
    destruct (valid_reasons_lower U _ Hr) as [_ [Hlow _]].
    cbn [ticket dict_get item String.eqb Ascii.eqb Bool.eqb].
    rewrite Hlow. cbn [valid_reasons In] in Hr.
    destruct Hr as [E | [E | [E | [E | []]]]]; rewrite <- E; auto 6.
Qed.

Lemma validated_ticket_days_witness :
  constraints_okb unicode_excerpt
    (lit "4829") (lit " John Smith") main_street (lit "EXPIRED") = true
  /\ rng_ok sample_rng
  /\ exists n' a' r' t g',
       validate_card_details unicode_excerpt
         (lit "4829") (lit " John Smith") main_street (lit "EXPIRED") sample_rng
       = (Ok (validated (lit "4829") n' a' r'), sample_rng)
       /\ issue_replacement_ticket unicode_excerpt (lit "4829") n' a' r'
            sample_rng = (Ok t, g')
       /\ dict_get "replacement_reason" t = Some (VStr r')
       /\ ((r' = lit "lost"
            /\ dict_get "estimated_processing_days" t = Some (VInt 3))
           \/ (r' = lit "stolen"
               /\ dict_get "estimated_processing_days" t = Some (VInt 1))
           \/ (r' = lit "damaged"
               /\ dict_get "estimated_processing_days" t = Some (VInt 2))
           \/ (r' = lit "expired"
               /\ dict_get "estimated_processing_days" t = Some (VInt 5))).
Proof.
  split; [reflexivity |]. split; [exact sample_rng_ok |].
  apply (validated_ticket_days unicode_excerpt
           (lit "4829") (lit " John Smith") main_street (lit "EXPIRED")
           sample_rng).
  - reflexivity.
  - exact sample_rng_ok.
Defined.

(** ** The user agent's tools

    [user_agent.py]: the profile dictionary and the two tools that read
    it.  A subscript [d[key]] on a missing key raises [KeyError(key)]. *)

Module UserAgent.
Import PyStr.

(** A [dict] from [str] to [str]. *)
Definition profile := list (string * pystr).

Definition entry (k : string) (v : pystr) : string * pystr := (k, v).

Definition USER_PROFILE : profile :=
  [ entry "cardholder_name" (lit "John Smith");
    entry "last_four_digits" (lit "4829");
    entry "address" (lit "123 Main Street, Anytown, NY 12345");
    entry "replacement_reason" (lit "lost");
    entry "phone" (lit "(555) 123-4567");
    entry "email" (lit "john.smith@email.com") ].

Inductive lookup (A : Type) : Type :=
| Found (a : A)
| KeyError (key : string).
Arguments Found {A} a.
Arguments KeyError {A} key.

(** [d[key]]. *)
Fixpoint subscript (d : profile) (key : string) : lookup pystr :=
  match d with
  | [] => KeyError key
  | (k, v) :: rest => if String.eqb key k then Found v else subscript rest key
  end.

Definition and_then {A B : Type} (m : lookup A) (f : A -> lookup B) : lookup B :=
  match m with
  | Found a => f a
  | KeyError k => KeyError k
  end.

Notation "x <~ m ;; k" := (and_then m (fun x => k))
  (at level 61, m at next level, right associativity).

(** [get_card_details]: the dictionary display evaluates its four
    subscripts of the global profile from first to last.  The argument is
    the global [USER_PROFILE] as it stands when the call is made. *)
Definition get_card_details (user_profile : profile) : lookup profile :=
  v1 <~ subscript user_profile "last_four_digits" ;;
  v2 <~ subscript user_profile "cardholder_name" ;;
  v3 <~ subscript user_profile "address" ;;
  v4 <~ subscript user_profile "replacement_reason" ;;
  Found [ entry "last_four_digits" v1;
          entry "cardholder_name" v2;
          entry "address" v3;
          entry "replacement_reason" v4 ].

(** [get_contact_info]. *)
Definition get_contact_info (user_profile : profile) : lookup profile :=
  v1 <~ subscript user_profile "phone" ;;
  v2 <~ subscript user_profile "email" ;;
  Found [ entry "phone" v1; entry "email" v2 ].

Definition card_keys : list string :=
  ["last_four_digits"; "cardholder_name"; "address"; "replacement_reason"]%string.

Definition contact_keys : list string := ["phone"; "email"]%string.

(** [key not in d]. *)
Definition missing (d : profile) (key : string) : bool :=
  match subscript d key with
  | Found _ => false
  | KeyError _ => true
  end.

(** The value under a key that is there ([""] otherwise). *)
Definition value_of (d : profile) (key : string) : pystr :=
  match subscript d key with
  | Found v => v
  | KeyError _ => []
  end.

Lemma subscript_KeyError (d : profile) (key k : string) :
  subscript d key = KeyError k -> k = key.
Proof.
  induction d as [| [k' v] d IH]; cbn.
  - now intros [= ->].
  - destruct (String.eqb key k'); [discriminate | exact IH].
Qed.

Lemma subscript_cases (d : profile) (key : string) :
  (missing d key = false /\ subscript d key = Found (value_of d key))
  \/ (missing d key = true /\ subscript d key = KeyError key).
Proof.
  unfold missing, value_of. destruct (subscript d key) as [v | k] eqn:H.
  - left. split; reflexivity.
  - right. apply subscript_KeyError in H. subst k. split; reflexivity.
Qed.

(** A tool's result holds only keys it names, each with the profile's
    value. *)
Lemma projection_entries (p : profile) (ks : list string) (k : string) (v : pystr) :
  Forall (fun k => missing p k = false) ks ->
  subscript (List.map (fun k => entry k (value_of p k)) ks) k = Found v ->
  In k ks /\ subscript p k = Found v.
Proof.
  intros Hall. induction Hall as [| k0 ks Hk0 _ IH]; cbn; [discriminate |].
  destruct (String.eqb_spec k k0) as [-> | Hne].
  - intros [= <-]. split; [now left |].
    destruct (subscript_cases p k0) as [[_ H] | [H _]]; [exact H | congruence].
  - intro H. destruct (IH H) as [Hin Hv]. split; [now right | exact Hv].
Qed.

End UserAgent.

(** ** Properties of the user agent's tools *)

Import UserAgent.

(** [get_card_details] on any profile: when one of its four keys is
    missing it raises [KeyError] for the first missing one, in the order
    digits, name, address, reason; otherwise it returns exactly those four
    entries, in that order, with the profile's values. *)
Theorem get_card_details_first_missing (p : profile) :
  get_card_details p =
  match List.find (missing p) card_keys with
  | Some k => KeyError k
  | None => Found (List.map (fun k => entry k (value_of p k)) card_keys)
  end.
Proof.
  unfold get_card_details, card_keys. cbn [List.find List.map].
  destruct (subscript_cases p "last_four_digits") as [[-> ->] | [-> ->]];
    [cbn [and_then] | reflexivity].
  destruct (subscript_cases p "cardholder_name") as [[-> ->] | [-> ->]];
    [cbn [and_then] | reflexivity].
  destruct (subscript_cases p "address") as [[-> ->] | [-> ->]];
    [cbn [and_then] | reflexivity].
  destruct (subscript_cases p "replacement_reason") as [[-> ->] | [-> ->]];
    reflexivity.
Qed.

(** A profile without an address: the call raises [KeyError('address')]. *)
Example get_card_details_no_address :
  get_card_details
    [ entry "last_four_digits" (lit "4829");
      entry "cardholder_name" (lit "John Smith");
      entry "phone" (lit "(555) 123-4567") ]
  = KeyError "address".
Proof. reflexivity. Qed.

(** The two tools split the profile: what [get_card_details] returns has
    only the four card keys and what [get_contact_info] returns only phone
    and email, no key is in both, and every value is the profile's. *)
Theorem tools_project_profile (p card contact : profile) :
  get_card_details p = Found card ->
  get_contact_info p = Found contact ->
  List.map fst card = card_keys
  /\ List.map fst contact = contact_keys
  /\ (forall k v, subscript card k = Found v ->
        In k card_keys /\ subscript p k = Found v
        /\ subscript contact k = KeyError k)
  /\ (forall k v, subscript contact k = Found v ->
        In k contact_keys /\ subscript p k = Found v
        /\ subscript card k = KeyError k).
Proof.
  unfold get_card_details, get_contact_info.
  destruct (subscript_cases p "last_four_digits") as [[M1 E1] | [_ E1]];
    rewrite E1; cbn [and_then]; [| discriminate].
  destruct (subscript_cases p "cardholder_name") as [[M2 E2] | [_ E2]];
    rewrite E2; cbn [and_then]; [| discriminate].
  destruct (subscript_cases p "address") as [[M3 E3] | [_ E3]];
    rewrite E3; cbn [and_then]; [| discriminate].
  destruct (subscript_cases p "replacement_reason") as [[M4 E4] | [_ E4]];
    rewrite E4; cbn [and_then]; [| discriminate].
  intros [= <-].
  destruct (subscript_cases p "phone") as [[M5 E5] | [_ E5]];
    rewrite E5; cbn [and_then]; [| discriminate].
  destruct (subscript_cases p "email") as [[M6 E6] | [_ E6]];
    rewrite E6; cbn [and_then]; [| discriminate].
  intros [= <-].
  split; [reflexivity |]. split; [reflexivity |]. split.
  - intros k v H.
    destruct (projection_entries p card_keys k v) as [Hin Hv].
    + repeat constructor; assumption.
    + exact H.
    + repeat split; try assumption.
      cbn [card_keys In] in Hin.
      destruct Hin as [<- | [<- | [<- | [<- | []]]]]; reflexivity.
  - intros k v H.
    destruct (projection_entries p contact_keys k v) as [Hin Hv].
    + repeat constructor; assumption.
    + exact H.
    + repeat split; try assumption.
      cbn [contact_keys In] in Hin.
      destruct Hin as [<- | [<- | []]]; reflexivity.
Qed.

Lemma tools_project_profile_witness :
  exists card contact,
    get_card_details USER_PROFILE = Found card
    /\ get_contact_info USER_PROFILE = Found contact
    /\ List.map fst card = card_keys
    /\ List.map fst contact = contact_keys
    /\ (forall k v, subscript card k = Found v ->
          In k card_keys /\ subscript USER_PROFILE k = Found v
          /\ subscript contact k = KeyError k)
    /\ (forall k v, subscript contact k = Found v ->
          In k contact_keys /\ subscript USER_PROFILE k = Found v
          /\ subscript card k = KeyError k).
Proof.
  eexists _, _. split; [reflexivity |]. split; [reflexivity |].
  apply (tools_project_profile USER_PROFILE); reflexivity.
Defined.

(** An ASCII string that neither starts nor ends with whitespace is left
    alone by [strip], whatever the database. *)
Lemma str_strip_ascii_edges (U : unicode_db) (s : pystr) :
  is_ascii (hd 32%N s) && negb (ascii_isspace (hd 32%N s))
  && is_ascii (last s 32%N) && negb (ascii_isspace (last s 32%N)) = true ->
  str_strip U s = s.
Proof.
  rewrite !andb_true_iff, !negb_true_iff. unfold is_ascii.
  intros [[[Hh1 Hh2] Hl1] Hl2]. apply N.ltb_lt in Hh1, Hl1.
  apply str_strip_fixed.
  - intros c rest ->. cbn in Hh1, Hh2.
    now rewrite (ucd_isspace_ascii U c Hh1).
  - intros c front ->. rewrite last_last in Hl1, Hl2.
    now rewrite (ucd_isspace_ascii U c Hl1).
Qed.

(** The user agent's profile goes through: [get_card_details] returns
    without a [KeyError], the service's validator accepts the four fields
    and returns them unchanged (they are already normalised), and the
    ticket issued for them promises 3 days. *)
Theorem user_profile_accepted (U : unicode_db) (g : rng) :
  rng_ok g ->
  exists d n a r t g',
    get_card_details USER_PROFILE
    = Found [ entry "last_four_digits" d; entry "cardholder_name" n;
              entry "address" a; entry "replacement_reason" r ]
    /\ validate_card_details U d n a r g = (Ok (validated d n a r), g)
    /\ issue_replacement_ticket U d n a r g = (Ok t, g')
    /\ dict_get "estimated_processing_days" t = Some (VInt 3)
    /\ dict_get "replacement_reason" t = Some (VStr (lit "lost")).
Proof.
  intro Hg.
  exists (lit "4829"), john_smith, main_street, (lit "lost").
  destruct (issue_replacement_ticket_eq U (lit "4829") john_smith main_street
              (lit "lost") g Hg) as [suffix [_ [_ Heq]]].
  eexists _, _. split; [reflexivity |].
  split; [| split; [exact Heq | split; reflexivity]].
  assert (Hn : str_strip U john_smith = john_smith)
    by (apply str_strip_ascii_edges; reflexivity).
  assert (Ha : str_strip U main_street = main_street)
    by (apply str_strip_ascii_edges; reflexivity).
  rewrite validate_card_details_eq.
  unfold constraints_okb, name_okb, address_okb.
  rewrite Hn, Ha.
  rewrite (spec_digits_okb_digits_okb U (lit "4829") eq_refl).
  reflexivity.
Qed.

Lemma user_profile_accepted_witness :
  rng_ok sample_rng
  /\ exists d n a r t g',
       get_card_details USER_PROFILE
       = Found [ entry "last_four_digits" d; entry "cardholder_name" n;
                 entry "address" a; entry "replacement_reason" r ]
       /\ validate_card_details unicode_excerpt d n a r sample_rng
          = (Ok (validated d n a r), sample_rng)
       /\ issue_replacement_ticket unicode_excerpt d n a r sample_rng
          = (Ok t, g')
       /\ dict_get "estimated_processing_days" t = Some (VInt 3)
       /\ dict_get "replacement_reason" t = Some (VStr (lit "lost")).
Proof.
  split; [exact sample_rng_ok |].
  apply (user_profile_accepted unicode_excerpt sample_rng).
  exact sample_rng_ok.
Defined.
